(** * deep-researcher: the agent orchestration core

    A shallow embedding of the routing functions, the calculator tool, the
    save-confirmation step and the research sub-pipeline of
    [backend/chat/{nodes,tools,research_graph}.py], with the properties the
    specification states about them.

    Python dictionaries with string keys are [gmap string _], Python sets
    are [gset _], Python [int] is [Z], and a node that can raise returns
    in the [exc] monad.  A LangGraph node that calls [interrupt] is a
    function of the state and of the resume value, when there is one:
    without a resume value the node stops at the interrupt and hands out
    its payload, with one it runs again from its first line and the
    interrupt returns that value. *)

From Stdlib Require Import ZArith Floats Ascii.
From stdpp Require Import gmap strings list fin_maps pretty.

#[local] Set Warnings "-register-all".
#[local] Open Scope Z_scope.

(** ** Python values and exceptions *)

Module Py.

(** The values that JSON carries: tool-call arguments, resume values and
    the dumps of pydantic models are all made of these. *)
Inductive pyval : Type :=
  | PNone
  | PBool (b : bool)
  | PInt (z : Z)
  | PFloat (f : float)
  | PStr (s : string)
  | PList (l : list pyval)
  | PDict (d : gmap string pyval).

(** [bool(v)]: what [if v] and [not v] test. *)
Definition truthy (v : pyval) : bool :=
  match v with
  | PNone => false
  | PBool b => b
  | PInt z => negb (z =? 0)
  | PFloat f => negb (PrimFloat.eqb f 0%float)
  | PStr s => negb (bool_decide (s = ""))
  | PList l => negb (bool_decide (l = []))
  | PDict d => negb (bool_decide (d = ∅))
  end.

(** [type(v).__name__] *)
Definition type_name (v : pyval) : string :=
  match v with
  | PNone => "NoneType"
  | PBool _ => "bool"
  | PInt _ => "int"
  | PFloat _ => "float"
  | PStr _ => "str"
  | PList _ => "list"
  | PDict _ => "dict"
  end.

(** [v == s] for a string literal [s]: only a [str] equals a [str]. *)
Definition eq_str (v : pyval) (s : string) : bool :=
  match v with
  | PStr t => bool_decide (t = s)
  | _ => false
  end.

(** A raised exception: its class and [str(e)]. *)
Record exn : Type := Exn { exn_class : string; exn_msg : string }.

Inductive exc (A : Type) : Type :=
  | Ok (a : A)
  | Raise (e : exn).
Arguments Ok {A} a.
Arguments Raise {A} e.

#[export] Instance exc_ret : MRet exc := λ A a, Ok a.
#[export] Instance exc_fmap : FMap exc := λ A B f m,
  match m with
  | Ok a => Ok (f a)
  | Raise e => Raise e
  end.
#[export] Instance exc_bind : MBind exc := λ A B k m,
  match m with
  | Ok a => k a
  | Raise e => Raise e
  end.

(** [l[k]] on a Python list, negative indices counting from the end. *)
Definition index {A : Type} (l : list A) (k : Z) : exc A :=
  let n := Z.of_nat (length l) in
  let pos := if k <? 0 then n + k else k in
  if (0 <=? pos) && (pos <? n) then
    match l !! Z.to_nat pos with
    | Some x => Ok x
    | None => Raise (Exn "IndexError" "list index out of range")
    end
  else Raise (Exn "IndexError" "list index out of range").

End Py.

Export Py.

(** ** Messages and conversation state *)

(** A tool call as the reasoning model emits it: [{"name", "id", "args"}]. *)
Record tool_call : Type := ToolCall {
  tc_name : string;
  tc_id : string;
  tc_args : gmap string pyval;
}.

(** The message classes of the conversation.  Only an [AIMessage] has a
    [tool_calls] attribute. *)
Inductive message : Type :=
  | HumanMessage (content : string)
  | SystemMessage (content : string)
  | AIMessage (content : string) (tool_calls : list tool_call)
  | ToolMessage (content : string) (tool_call_id : string) (name : string).

(** [getattr(m, "tool_calls")] when [hasattr(m, "tool_calls")]. *)
Definition tool_calls_of (m : message) : option (list tool_call) :=
  match m with
  | AIMessage _ tcs => Some tcs
  | _ => None
  end.

(** ** The pydantic models of the pipeline *)

Module Schemas.

(** Modelled from the spec: [chat/schemas.py] is not among the sources.
    The fields are those of the report object of the specification's
    data model ([{title, summary, keyFindings[{insight, evidence,
    sources[]}], sources[], tags[], methodology}]) under the names the
    nodes and [tests/unit/test_schemas.py] use, with the defaults that
    test file checks. *)
Record ResearchFinding : Type := {
  insight : string;
  evidence : string;
  finding_sources : list string;
}.

Record ResearchReport : Type := {
  title : string;
  summary : string;
  key_findings : list ResearchFinding;
  sources : list string;
  tags : list string;
  methodology : string;
}.

Record HITLOption : Type := {
  opt_id : string;
  opt_label : string;
  opt_description : string;
  opt_selected : bool;
}.

Inductive hitl_type : Type :=
  | checkbox | yes_no | select | text | review | confirm.

(** [options] and [report] are optional fields: [None] is Python's. *)
Record HITLPayload : Type := {
  payload_type : hitl_type;
  payload_title : string;
  payload_message : string;
  payload_options : option (list HITLOption);
  payload_report : option ResearchReport;
}.

Record ExplorerInstruction : Type := {
  query : string;
  search_focus : string;
  context : string;
}.

Record SearchResult : Type := {
  result_url : string;
  result_title : string;
  result_content : string;
  result_score : float;
}.

Definition ValidationError : exn := Exn "ValidationError" "validation error".

(** [model_dump()] *)
Definition dump_strings (l : list string) : pyval := PList (PStr <$> l).

Definition dump_finding (f : ResearchFinding) : pyval :=
  PDict {[ "insight" := PStr (insight f);
           "evidence" := PStr (evidence f);
           "sources" := dump_strings (finding_sources f) ]}.

Definition model_dump (r : ResearchReport) : gmap string pyval :=
  {[ "title" := PStr (title r);
     "summary" := PStr (summary r);
     "key_findings" := PList (dump_finding <$> key_findings r);
     "sources" := dump_strings (sources r);
     "tags" := dump_strings (tags r);
     "methodology" := PStr (methodology r) ]}.

(** Validation of a field against its annotation. *)
Definition as_str (v : pyval) : exc string :=
  match v with
  | PStr s => Ok s
  | _ => Raise ValidationError
  end.

Definition as_list {A : Type} (elt : pyval → exc A) (v : pyval) : exc (list A) :=
  match v with
  | PList l => mapM elt l
  | _ => Raise ValidationError
  end.

(** A field that must be there, and one that has a default. *)
Definition required {A : Type} (f : pyval → exc A) (d : gmap string pyval) (k : string) : exc A :=
  match d !! k with
  | Some v => f v
  | None => Raise ValidationError
  end.

Definition optional {A : Type} (f : pyval → exc A) (d : gmap string pyval) (k : string)
    (default : A) : exc A :=
  match d !! k with
  | Some v => f v
  | None => Ok default
  end.

Definition validate_finding (v : pyval) : exc ResearchFinding :=
  match v with
  | PDict d =>
      i ← required as_str d "insight";
      e ← required as_str d "evidence";
      s ← optional (as_list as_str) d "sources" [];
      Ok {| insight := i; evidence := e; finding_sources := s |}
  | _ => Raise ValidationError
  end.

(** [ResearchReport] built from the keys of a dict, as the nodes do with
    the double-star call; keys that are no field are ignored. *)
Definition validate_report (d : gmap string pyval) : exc ResearchReport :=
  t ← required as_str d "title";
  s ← required as_str d "summary";
  k ← optional (as_list validate_finding) d "key_findings" [];
  srcs ← optional (as_list as_str) d "sources" [];
  tgs ← optional (as_list as_str) d "tags" [];
  m ← optional as_str d "methodology" "";
  Ok {| title := t; summary := s; key_findings := k; sources := srcs;
        tags := tgs; methodology := m |}.

End Schemas.

(** ** Running a node *)

Module LangGraph.
Import Schemas.

(** What running a node gives: it stopped at an [interrupt] with a
    payload, it returned its dict, or it raised. *)
Inductive step (U : Type) : Type :=
  | Suspend (payload : HITLPayload)
  | Return (u : U)
  | Fail (e : exn).
Arguments Suspend {U} payload.
Arguments Return {U} u.
Arguments Fail {U} e.

(** [interrupt(payload)]: without a resume value the node stops here;
    with one, [interrupt] returns it and the node goes on. *)
Definition interrupt {U : Type} (payload : HITLPayload) (resume : option pyval)
    (k : pyval → step U) : step U :=
  match resume with
  | None => Suspend payload
  | Some user_response => k user_response
  end.

(** A call that may raise, in a node that does not catch. *)
Definition call {A U : Type} (r : exc A) (k : A → step U) : step U :=
  match r with
  | Ok a => k a
  | Raise e => Fail e
  end.

End LangGraph.

(** ** The nodes of the parent graph *)

Module Nodes.
Import Schemas LangGraph.

(** The part of [AgentState] that the nodes below read. *)
Record state : Type := State {
  messages : list message;
  research_reports : list (gmap string pyval);
}.

(** [messages[-1]] *)
Definition last_message (msgs : list message) : exc message :=
  index msgs (-1).

(** [should_continue]: route on the tool calls of the last message. *)
Definition should_continue (st : state) : exc string :=
  last_message ← last_message (messages st);
  match tool_calls_of last_message with
  | Some ((_ :: _) as tcs) =>
      let tool_names : gset string := list_to_set (tc_name <$> tcs) in
      if decide ("deep_research" ∈ tool_names) then Ok "deep_research"
      else if decide ("save_report" ∈ tool_names) then Ok "save_confirm"
      else Ok "tools"
  | _ => Ok "end"
  end.

(** The dict a node of the parent graph returns: the messages it adds
    and, when it sets the key, the new [pending_save]. *)
Record update : Type := {
  add_messages : list message;
  set_pending_save : option (option (gmap string pyval));
}.

(** The first [save_report] call of the last message, when there is one:
    what the [for ... break] loops look for. *)
Definition save_call (msgs : list message) : option tool_call :=
  tcs ← last msgs ≫= tool_calls_of;
  head (filter (λ tc, tc_name tc = "save_report") tcs).

(** A list length as a float (exact below 2^53). *)
Definition int_to_float (z : Z) : float := PrimFloat.of_uint63 (Uint63.of_Z z).

(** [-(min(report_index, hi) + 1)], the index that [reports[..]] is
    given.  [min] keeps its first argument unless the second is smaller;
    a [bool] is an [int]; a float that [min] keeps cannot index a list. *)
Definition reverse_index (report_index : pyval) (hi : Z) : exc Z :=
  match report_index with
  | PInt z => Ok (- (z `min` hi + 1))
  | PBool b => Ok (- (Z.b2z b `min` hi + 1))
  | PFloat f =>
      if PrimFloat.ltb (int_to_float hi) f then Ok (- (hi + 1))
      else Raise (Exn "TypeError" "list indices must be integers or slices, not float")
  | v => Raise (Exn "TypeError"
                  ("'<' not supported between instances of 'int' and '" +:+
                   type_name v +:+ "'"))
  end.

Definition save_options : list HITLOption :=
  [ {| opt_id := "save"; opt_label := "Save";
       opt_description := "Save report to database"; opt_selected := false |};
    {| opt_id := "cancel"; opt_label := "Cancel";
       opt_description := "Don't save"; opt_selected := false |} ].

(** The [ToolMessage] that answers the [save_report] call. *)
Definition save_reply (msgs : list message) (content : string) : update :=
  {| add_messages :=
       [ToolMessage content (default "" (tc_id <$> save_call msgs)) "save_report"];
     set_pending_save := Some None |}.

(** [report_index]: 0, or what the [save_report] call asks for. *)
Definition requested_index (msgs : list message) : pyval :=
  match save_call msgs with
  | Some tc => default (PInt 0) (tc_args tc !! "report_index")
  | None => PInt 0
  end.

(** [reports[-(idx + 1)]], the report that the requested index resolves to. *)
Definition selected_report (st : state) : exc (gmap string pyval) :=
  let reports := research_reports st in
  k ← reverse_index (requested_index (messages st)) (Z.of_nat (length reports) - 1);
  index reports k.

Definition save_confirm_node (st : state) (resume : option pyval) : step update :=
  match research_reports st with
  | [] =>
      Return (save_reply (messages st)
                "No research reports available to save. Run a deep research first.")
  | _ =>
      call (selected_report st) (λ report,
      call (validate_report report) (λ validated,
        let payload :=
          {| payload_type := confirm;
             payload_title := "Save Research Report";
             payload_message := "Do you want to save this research report to the database?";
             payload_report := Some validated;
             payload_options := Some save_options |} in
        interrupt payload resume (λ user_response,
          let action :=
            match user_response with
            | PDict r => default (PStr "cancel") (r !! "action")
            | v => v
            end in
          if eq_str action "save" then
            Return {| add_messages := []; set_pending_save := Some (Some report) |}
          else
            Return (save_reply (messages st) "Report save cancelled by user."))))
  end.

End Nodes.

(** ** The calculator tool *)

Module Tools.

(** *** Python's [eval] on integer arithmetic

    [calculator] hands a whitelisted string to the builtin [eval].  The
    builtin is modelled on the expressions made of integer literals,
    [+ - * / // **], unary signs and parentheses whose value is an [int]
    or whose evaluation divides an [int] by zero with [/]; on every other
    string (floats, the empty tuple, Ellipsis, syntax errors, and what
    meets CPython's own limits) the outcome is left to an oracle that
    the definitions take as a parameter. *)

Inductive token : Type :=
  | TNum (n : Z)
  | TPlus | TMinus | TStar | TDStar | TSlash | TDSlash
  | TLPar | TRPar.

Definition digit_of (c : ascii) : option Z :=
  let n := N_of_ascii c in
  if ((48 <=? n) && (n <=? 57))%N then Some (Z.of_N n - 48) else None.

(** The literal read so far: its value, and whether it is still a legal
    decimal literal (a leading zero may only be followed by zeros). *)
Fixpoint lex_number (acc : Z) (lead0 : bool) (s : string) : option (Z * string) :=
  match s with
  | String c s' =>
      match digit_of c with
      | Some d =>
          if lead0 && negb (d =? 0) then None
          else lex_number (10 * acc + d) lead0 s'
      | None => Some (acc, s)
      end
  | EmptyString => Some (acc, s)
  end.

(** One step of the tokenizer per character of fuel; [None] outside the
    modelled fragment. *)
Fixpoint tokenize (fuel : nat) (s : string) : option (list token) :=
  match fuel with
  | O => None
  | S fuel =>
      match s with
      | EmptyString => Some []
      | String c s' =>
          if decide (c = " "%char) then tokenize fuel s'
          else if decide (c = "+"%char) then cons TPlus <$> tokenize fuel s'
          else if decide (c = "-"%char) then cons TMinus <$> tokenize fuel s'
          else if decide (c = "("%char) then cons TLPar <$> tokenize fuel s'
          else if decide (c = ")"%char) then cons TRPar <$> tokenize fuel s'
          else if decide (c = "*"%char) then
            match s' with
            | String "*" s'' => cons TDStar <$> tokenize fuel s''
            | _ => cons TStar <$> tokenize fuel s'
            end
          else if decide (c = "/"%char) then
            match s' with
            | String "/" s'' => cons TDSlash <$> tokenize fuel s''
            | _ => cons TSlash <$> tokenize fuel s'
            end
          else
            match digit_of c with
            | Some d =>
                '(n, rest) ← lex_number d (d =? 0) s';
                cons (TNum n) <$> tokenize fuel rest
            | None => None
            end
      end
  end.

Inductive expr : Type :=
  | ENum (n : Z)
  | EPos (e : expr)
  | ENeg (e : expr)
  | EAdd (a b : expr)
  | ESub (a b : expr)
  | EMul (a b : expr)
  | EDiv (a b : expr)
  | EFloorDiv (a b : expr)
  | EPow (a b : expr).

(** Python's expression grammar on these tokens:
    arith ::= term (('+'|'-') term)*,  term ::= factor (('*'|'/'|'//') factor)*,
    factor ::= ('+'|'-') factor | power,  power ::= atom ['**' factor],
    atom ::= NUMBER | '(' arith ')'. *)
Fixpoint parse_arith (fuel : nat) (ts : list token) : option (expr * list token) :=
  match fuel with
  | O => None
  | S fuel => '(a, ts) ← parse_term fuel ts; arith_rest fuel a ts
  end
with arith_rest (fuel : nat) (a : expr) (ts : list token) : option (expr * list token) :=
  match fuel with
  | O => None
  | S fuel =>
      match ts with
      | TPlus :: ts => '(b, ts) ← parse_term fuel ts; arith_rest fuel (EAdd a b) ts
      | TMinus :: ts => '(b, ts) ← parse_term fuel ts; arith_rest fuel (ESub a b) ts
      | _ => Some (a, ts)
      end
  end
with parse_term (fuel : nat) (ts : list token) : option (expr * list token) :=
  match fuel with
  | O => None
  | S fuel => '(a, ts) ← parse_factor fuel ts; term_rest fuel a ts
  end
with term_rest (fuel : nat) (a : expr) (ts : list token) : option (expr * list token) :=
  match fuel with
  | O => None
  | S fuel =>
      match ts with
      | TStar :: ts => '(b, ts) ← parse_factor fuel ts; term_rest fuel (EMul a b) ts
      | TSlash :: ts => '(b, ts) ← parse_factor fuel ts; term_rest fuel (EDiv a b) ts
      | TDSlash :: ts => '(b, ts) ← parse_factor fuel ts; term_rest fuel (EFloorDiv a b) ts
      | _ => Some (a, ts)
      end
  end
with parse_factor (fuel : nat) (ts : list token) : option (expr * list token) :=
  match fuel with
  | O => None
  | S fuel =>
      match ts with
      | TPlus :: ts => '(e, ts) ← parse_factor fuel ts; Some (EPos e, ts)
      | TMinus :: ts => '(e, ts) ← parse_factor fuel ts; Some (ENeg e, ts)
      | _ => parse_power fuel ts
      end
  end
with parse_power (fuel : nat) (ts : list token) : option (expr * list token) :=
  match fuel with
  | O => None
  | S fuel =>
      '(a, ts) ← parse_atom fuel ts;
      match ts with
      | TDStar :: ts => '(b, ts) ← parse_factor fuel ts; Some (EPow a b, ts)
      | _ => Some (a, ts)
      end
  end
with parse_atom (fuel : nat) (ts : list token) : option (expr * list token) :=
  match fuel with
  | O => None
  | S fuel =>
      match ts with
      | TNum n :: ts => Some (ENum n, ts)
      | TLPar :: ts =>
          '(e, ts) ← parse_arith fuel ts;
          match ts with
          | TRPar :: ts => Some (e, ts)
          | _ => None
          end
      | _ => None
      end
  end.

(** The whole string must be one expression. *)
Definition parse (s : string) : option expr :=
  ts ← tokenize (S (String.length s)) s;
  '(e, rest) ← parse_arith (8 * S (length ts)) ts;
  match rest with
  | [] => Some e
  | _ => None
  end.

(** What evaluating an expression of the fragment gives: an [int], a
    raised exception, or a value or exception outside the fragment. *)
Inductive outcome : Type :=
  | Int (z : Z)
  | Raises (e : exn)
  | Other.

(** Both operands are evaluated, the left one first, then the operator
    is applied. *)
Definition binop (f : Z → Z → outcome) (a b : outcome) : outcome :=
  match a with
  | Int x =>
      match b with
      | Int y => f x y
      | Raises e => Raises e
      | Other => Other
      end
  | Raises e => Raises e
  | Other => Other
  end.

Definition unop (f : Z → Z) (a : outcome) : outcome :=
  match a with
  | Int x => Int (f x)
  | _ => a
  end.

(** [/] of two ints is a float, or [ZeroDivisionError]. *)
Definition true_div (x y : Z) : outcome :=
  if y =? 0 then Raises (Exn "ZeroDivisionError" "division by zero") else Other.

(** [//] rounds towards minus infinity, as [Z.div] does; the message of
    its [ZeroDivisionError] depends on the CPython version. *)
Definition floor_div (x y : Z) : outcome :=
  if y =? 0 then Other else Int (x `div` y).

(** [**] with a negative exponent is a float, or [ZeroDivisionError]. *)
Definition power (x y : Z) : outcome :=
  if y <? 0 then Other else Int (x ^ y).

Fixpoint eval_expr (e : expr) : outcome :=
  match e with
  | ENum n => Int n
  | EPos a => unop id (eval_expr a)
  | ENeg a => unop Z.opp (eval_expr a)
  | EAdd a b => binop (λ x y, Int (x + y)) (eval_expr a) (eval_expr b)
  | ESub a b => binop (λ x y, Int (x - y)) (eval_expr a) (eval_expr b)
  | EMul a b => binop (λ x y, Int (x * y)) (eval_expr a) (eval_expr b)
  | EDiv a b => binop true_div (eval_expr a) (eval_expr b)
  | EFloorDiv a b => binop floor_div (eval_expr a) (eval_expr b)
  | EPow a b => binop power (eval_expr a) (eval_expr b)
  end.

(** CPython refuses to convert an [int] of more than 4300 digits to or
    from [str], and to nest parentheses more than 200 deep: the model
    keeps to strings and values below both limits. *)
Definition within_limits (s : string) : bool :=
  bool_decide (String.length s ≤ 200)%nat.

Definition int_max_str_digits : Z := 4300.

(** [str(eval(expression))], or the exception [eval] raised; [builtin]
    stands for the interpreter outside the fragment. *)
Definition eval_str (builtin : string → exc string) (expression : string) : exc string :=
  if within_limits expression then
    match eval_expr <$> parse expression with
    | Some (Int z) =>
        if Z.abs z <? 10 ^ int_max_str_digits then Ok (pretty z)
        else builtin expression
    | Some (Raises e) => Raise e
    | Some Other | None => builtin expression
    end
  else builtin expression.

(** *** [calculator] *)

(** The calls of [eval] that a run made. *)
Inductive event : Type := Eval (source : string).

Fixpoint chars (s : string) : list ascii :=
  match s with
  | EmptyString => []
  | String c s' => c :: chars s'
  end.

(** [set("0123456789+-*/.(). ")] *)
Definition allowed_chars : gset ascii :=
  list_to_set (chars "0123456789+-*/.(). ").

(** [calculator(expression)]: the string it returns, with the calls of
    [eval] it made on the way. *)
Definition calculator (builtin : string → exc string) (expression : string)
  : list event * string :=
  if negb (forallb (λ c, bool_decide (c ∈ allowed_chars)) (chars expression)) then
    ([], "Error: Invalid characters in expression. Only basic arithmetic is supported.")
  else
    match eval_str builtin expression with
    | Ok result => ([Eval expression], result)
    | Raise e => ([Eval expression], "Error evaluating expression: " +:+ exn_msg e)
    end.

End Tools.

(** ** The research sub-pipeline *)

Module ResearchGraph.
Import Schemas LangGraph.

#[local] Open Scope nat_scope.

(** [DeepResearchState]: a key that the dict does not have yet is [None]
    ([clarified_topics], [explorer_instructions]) or, for [report], also
    Python's [None]; [search_results] is the channel that adds up. *)
Record DeepResearchState : Type := {
  topic : option string;
  depth : option string;
  clarified_topics : option (list string);
  explorer_instructions : option (list ExplorerInstruction);
  search_results : list SearchResult;
  report : option (gmap string pyval);
  status : option string;
}.

(** The dict a node returns: the keys it sets. *)
Record update : Type := {
  set_clarified_topics : option (list string);
  set_explorer_instructions : option (list ExplorerInstruction);
  add_search_results : list SearchResult;
  set_report : option (gmap string pyval);
  set_status : option string;
}.

Definition no_update : update :=
  {| set_clarified_topics := None; set_explorer_instructions := None;
     add_search_results := []; set_report := None; set_status := None |}.

(** How the graph folds a node's dict into the state: [search_results]
    is annotated with [operator.add], every other key is overwritten. *)
Definition apply_update (st : DeepResearchState) (u : update) : DeepResearchState :=
  {| topic := topic st;
     depth := depth st;
     clarified_topics :=
       match set_clarified_topics u with Some l => Some l | None => clarified_topics st end;
     explorer_instructions :=
       match set_explorer_instructions u with
       | Some l => Some l
       | None => explorer_instructions st
       end;
     search_results := search_results st ++ add_search_results u;
     report := match set_report u with Some r => Some r | None => report st end;
     status := match set_status u with Some s => Some s | None => status st end |}.

Definition nl : string := String "010"%char "".

Definition DEPTH_MAP : gmap string nat :=
  {[ "quick" := 3; "standard" := 5; "deep" := 8 ]}.

(** [[... for i, t in enumerate(subtopics)]] *)
Definition topic_options (subtopics : list string) : list HITLOption :=
  imap (λ i t, {| opt_id := "topic_" +:+ pretty i; opt_label := t;
                  opt_description := ""; opt_selected := true |}) subtopics.

(** [opt.id in selected_ids]: some element of the list equals the id. *)
Definition id_in (id : string) (selected_ids : list pyval) : bool :=
  existsb (λ v, eq_str v id) selected_ids.

(** [DEPTH_MAP.get(depth, 5)] *)
Definition depth_width (depth : string) : nat := default 5 (DEPTH_MAP !! depth).

(** The prompts, as the f-strings build them. *)
Definition clarify_prompt (topic : string) : string :=
  "Given the research topic: '" +:+ topic +:+ "'" +:+ nl +:+ nl +:+
  "Suggest 5-8 specific sub-topics or angles to investigate.".

Definition orchestrate_prompt (num_explorers : nat) (topics : list string) : string :=
  "You are creating search instructions for " +:+ pretty num_explorers +:+
  " parallel web researchers." +:+ nl +:+ nl +:+
  "Research topics to cover:" +:+ nl +:+
  String.concat nl ((λ t, "- " +:+ t) <$> topics) +:+
  nl +:+ nl +:+ "Create exactly " +:+ pretty num_explorers +:+
  " search instructions. Each should have:" +:+ nl +:+
  "- A specific, well-crafted search query for Tavily web search" +:+ nl +:+
  "- A clear search focus describing what to look for" +:+ nl +:+
  "- Optional context for the researcher".

(** [enumerate(search_results, 1)] turned into the text of the prompt. *)
Definition results_text (search_results : list SearchResult) : string :=
  String.concat ""
    (imap (λ i r,
       nl +:+ "--- Result " +:+ pretty (S i) +:+ " ---" +:+ nl +:+
       "Title: " +:+ result_title r +:+ nl +:+
       "URL: " +:+ result_url r +:+ nl +:+
       "Content: " +:+ result_content r +:+ nl) search_results).

Definition synthesize_prompt (topic : string) (clarified_topics : list string)
    (search_results : list SearchResult) : string :=
  "Synthesize the following search results into a comprehensive research report." +:+
  nl +:+ nl +:+
  "Original topic: " +:+ topic +:+ nl +:+
  "Sub-topics investigated: " +:+ String.concat ", " clarified_topics +:+ nl +:+ nl +:+
  "Search Results:" +:+ nl +:+ results_text search_results +:+ nl +:+ nl +:+
  "Create a well-structured report with:" +:+ nl +:+
  "- A clear title" +:+ nl +:+
  "- Executive summary" +:+ nl +:+
  "- Key findings with evidence and source URLs" +:+ nl +:+
  "- List of all source URLs" +:+ nl +:+
  "- Relevant tags" +:+ nl +:+
  "- Brief methodology description".

Section Nodes.

(** The reasoning model in structured-output mode, one function per
    schema, from the prompt to the object it returns. *)
Variable suggest : string → exc (list string).
Variable instruct : string → exc (list ExplorerInstruction).
Variable synthesize : string → exc ResearchReport.

(** [TavilySearchResults(max_results=3).invoke], from the query. *)
Variable search : string → exc pyval.

(** [SearchResult(url=.., title=.., content=.., score=..)] on the raw
    fields of a search hit: pydantic's validation of the four fields. *)
Variable validate_result : pyval → pyval → pyval → pyval → exc SearchResult.

Definition clarify_node (state : DeepResearchState) (resume : option pyval) : step update :=
  let topic := default "" (topic state) in
  call (suggest (clarify_prompt topic))
  (λ subtopics,
    let options := topic_options subtopics in
    let payload :=
      {| payload_type := checkbox;
         payload_title := "Select Research Topics";
         payload_message :=
           "The following sub-topics were identified for '" +:+ topic +:+
           "'. Select the ones you'd like to research:";
         payload_options := Some options;
         payload_report := None |} in
    interrupt payload resume (λ user_response,
      let selected_ids := match user_response with PList l => l | _ => [] end in
      let selected_topics :=
        opt_label <$> filter (λ opt, id_in (opt_id opt) selected_ids = true) options in
      let selected_topics :=
        match selected_topics with
        | [] => subtopics
        | _ => selected_topics
        end in
      Return {| set_clarified_topics := Some selected_topics;
                set_explorer_instructions := None;
                add_search_results := [];
                set_report := None;
                set_status := Some "clarified" |})).

Definition orchestrate_node (state : DeepResearchState) : step update :=
  let topics := default [] (clarified_topics state) in
  let depth := default "standard" (depth state) in
  let num_explorers := length topics `min` depth_width depth in
  call (instruct (orchestrate_prompt num_explorers topics))
  (λ result,
    let instructions := take num_explorers result in
    Return {| set_clarified_topics := None;
              set_explorer_instructions := Some instructions;
              add_search_results := [];
              set_report := None;
              set_status := Some "orchestrated" |}).

(** [ExplorerState], the input of one explorer. *)
Record ExplorerState : Type := {
  ex_query : string;
  ex_search_focus : string;
  ex_context : string;
  ex_search_results : list SearchResult;
}.

(** [route_to_explorers]: one [Send("explorer", ...)] per instruction. *)
Definition route_to_explorers (state : DeepResearchState) : list ExplorerState :=
  (λ inst, {| ex_query := query inst;
              ex_search_focus := search_focus inst;
              ex_context := context inst;
              ex_search_results := [] |})
  <$> default [] (explorer_instructions state).

Definition AttributeError (v : pyval) : exn :=
  Exn "AttributeError" ("'" +:+ type_name v +:+ "' object has no attribute 'get'").

(** The body of the [try]: search, then one [SearchResult] per hit. *)
Definition explorer_try (query : string) : exc (list SearchResult) :=
  raw_results ← search query;
  match raw_results with
  | PList hits =>
      mapM (λ r,
        match r with
        | PDict d =>
            validate_result (default (PStr "") (d !! "url"))
                            (default (PStr query) (d !! "title"))
                            (default (PStr "") (d !! "content"))
                            (default (PFloat 0) (d !! "score"))
        | v => Raise (AttributeError v)
        end) hits
  | PStr s =>
      Ok [{| result_url := ""; result_title := query; result_content := s;
             result_score := 0 |}]
  | _ => Ok []
  end.

Definition explorer_node (state : ExplorerState) : step update :=
  let query := ex_query state in
  let results :=
    match explorer_try query with
    | Ok results => results
    | Raise e =>
        [{| result_url := ""; result_title := query;
            result_content := "Search error: " +:+ exn_msg e;
            result_score := 0 |}]
    end in
  Return {| set_clarified_topics := None;
            set_explorer_instructions := None;
            add_search_results := results;
            set_report := None;
            set_status := None |}.

(** The fan-out stage: every explorer runs, their dicts are folded into
    the state one after the other, and the stage fails when one of them
    does. *)
Fixpoint explore (state : DeepResearchState) (explorers : list ExplorerState)
    : exc DeepResearchState :=
  match explorers with
  | [] => Ok state
  | ex :: explorers =>
      match explorer_node ex with
      | Return u => explore (apply_update state u) explorers
      | Fail e => Raise e
      | Suspend _ => Raise (Exn "GraphInterrupt" "")
      end
  end.

Definition synthesize_node (state : DeepResearchState) : step update :=
  let topic := default "" (topic state) in
  let clarified_topics := default [] (clarified_topics state) in
  call (synthesize (synthesize_prompt topic clarified_topics (search_results state)))
  (λ report,
    Return {| set_clarified_topics := None;
              set_explorer_instructions := None;
              add_search_results := [];
              set_report := Some (model_dump report);
              set_status := Some "synthesized" |}).

End Nodes.

(** [report.update(edits)].  A dict argument is merged key by key, the
    argument winning; an argument that cannot be iterated, or a string,
    raises.  A list is read by Python as a sequence of key-value pairs:
    that form is not modelled ([None]). *)
Definition dict_update (d : gmap string pyval) (other : pyval)
    : option (exc (gmap string pyval)) :=
  match other with
  | PDict e => Some (Ok (e ∪ d))
  | PList _ => None
  | PStr _ => Some (Raise (Exn "ValueError" "dictionary update sequence element #0 has length 1; 2 is required"))
  | v => Some (Raise (Exn "TypeError" ("'" +:+ type_name v +:+ "' object is not iterable")))
  end.

Definition review_options : list HITLOption :=
  [ {| opt_id := "approve"; opt_label := "Approve";
       opt_description := "Accept this report"; opt_selected := false |};
    {| opt_id := "edit"; opt_label := "Edit";
       opt_description := "Modify the report"; opt_selected := false |};
    {| opt_id := "redo"; opt_label := "Redo";
       opt_description := "Re-run the research"; opt_selected := false |} ].

Definition approved : update :=
  {| set_clarified_topics := None; set_explorer_instructions := None;
     add_search_results := []; set_report := None;
     set_status := Some "approved" |}.

(** [review_node]; [None] only where [dict_update] is. *)
Definition review_node (state : DeepResearchState) (resume : option pyval) : option (step update) :=
  let report := report state in
  let truthy_report :=
    match report with
    | Some d => if decide (d = ∅) then None else Some d
    | None => None
    end in
  let validated :=
    match truthy_report with
    | Some d => Some <$> validate_report d
    | None => Ok None
    end in
  match validated with
  | Raise e => Some (Fail e)
  | Ok payload_report =>
      let payload :=
        {| payload_type := review;
           payload_title := "Review Research Report";
           payload_message :=
             "Please review the research report below. You can approve it, edit it, or request a redo.";
           payload_report := payload_report;
           payload_options := Some review_options |} in
      match resume with
      | None => Some (Suspend payload)
      | Some user_response =>
          let action :=
            match user_response with
            | PDict r => default (PStr "approve") (r !! "action")
            | _ => PStr "approve"
            end in
          let rest :=
            if eq_str action "redo"
            then Return {| set_clarified_topics := None;
                           set_explorer_instructions := None;
                           add_search_results := [];
                           set_report := None;
                           set_status := Some "redo" |}
            else Return approved in
          match user_response with
          | PDict r =>
              if eq_str action "edit" then
                let edits := default (PDict ∅) (r !! "edits") in
                match truthy_report with
                | Some d =>
                    if truthy edits then
                      match dict_update d edits with
                      | Some (Ok d') =>
                          Some (Return {| set_clarified_topics := None;
                                          set_explorer_instructions := None;
                                          add_search_results := [];
                                          set_report := Some d';
                                          set_status := Some "approved" |})
                      | Some (Raise e) => Some (Fail e)
                      | None => None
                      end
                    else Some rest
                | None => Some rest
                end
              else Some rest
          | _ => Some rest
          end
      end
  end.

(** The nodes of the subgraph, with [START] and [END]. *)
Inductive node : Type :=
  | START | clarify | orchestrate | explorer | synthesize_ | review_ | END.

(** [should_continue_review], as the name of the next node. *)
Definition should_continue_review (state : DeepResearchState) : string :=
  if decide (status state = Some "redo") then "orchestrate" else "__end__".

(** The mapping that [add_conditional_edges] gives for [review]. *)
Definition review_edges : gmap string node :=
  {[ "orchestrate" := orchestrate; "__end__" := END ]}.

(** The node that follows [review] in [build_research_subgraph]. *)
Definition after_review (state : DeepResearchState) : option node :=
  review_edges !! should_continue_review state.

(** The state the parent graph enters the subgraph with ([ResearchInput]). *)
Definition initial (topic depth : string) : DeepResearchState :=
  {| topic := Some topic; depth := Some depth;
     clarified_topics := None; explorer_instructions := None;
     search_results := []; report := None; status := None |}.

(** One move of [build_research_subgraph]: the node the run is at
    returns its dict, the dict is folded into the state, and the edges
    give the next node.  The answers of the reasoning model and of the
    search tool, and the resume values, are whatever they are at that
    move.  [orchestrate] is followed by the explorers that
    [route_to_explorers] sends, all of them in one move, or by nothing
    when it sends none. *)
Inductive moves : node * DeepResearchState → node * DeepResearchState → Prop :=
  | moves_start st :
      moves (START, st) (clarify, st)
  | moves_clarify suggest st user_response u :
      clarify_node suggest st (Some user_response) = Return u →
      moves (clarify, st) (orchestrate, apply_update st u)
  | moves_orchestrate instruct st u :
      orchestrate_node instruct st = Return u →
      route_to_explorers (apply_update st u) ≠ [] →
      moves (orchestrate, st) (explorer, apply_update st u)
  | moves_orchestrate_end instruct st u :
      orchestrate_node instruct st = Return u →
      route_to_explorers (apply_update st u) = [] →
      moves (orchestrate, st) (END, apply_update st u)
  | moves_explorer search validate_result st st' :
      explore search validate_result st (route_to_explorers st) = Ok st' →
      moves (explorer, st) (synthesize_, st')
  | moves_synthesize synthesize st u :
      synthesize_node synthesize st = Return u →
      moves (synthesize_, st) (review_, apply_update st u)
  | moves_review st user_response u next :
      review_node st (Some user_response) = Some (Return u) →
      after_review (apply_update st u) = Some next →
      moves (review_, st) (next, apply_update st u).

(** The configurations a research run goes through. *)
Definition reachable (topic depth : string) (c : node * DeepResearchState) : Prop :=
  rtc moves (START, initial topic depth) c.

End ResearchGraph.

(** ** The tool registry *)

Module ToolRegistry.

(** The tools that [ToolNode] executes ([SIMPLE_TOOLS]) and the tools
    bound to the reasoning model ([ALL_TOOLS]), by name. *)
Definition SIMPLE_TOOLS : list string :=
  ["get_current_time"; "calculator"; "tavily_search"; "create_plan"].

Definition ALL_TOOLS : list string :=
  ["get_current_time"; "calculator"; "tavily_search"; "create_plan";
   "deep_research"; "save_report"].

End ToolRegistry.

(** ** The other nodes of the parent graph *)

Module Agent.
Import Schemas LangGraph.

(** [AgentState].  [model] is [None] when the key is absent;
    [pending_save] and [report] are [None] when absent or Python's
    [None]; [topic] and [depth] hold whatever the tool call carried. *)
Record AgentState : Type := {
  messages : list message;
  model : option string;
  research_reports : list (gmap string pyval);
  pending_save : option (gmap string pyval);
  topic : option pyval;
  depth : option pyval;
  report : option (gmap string pyval);
}.

(** The dict a node returns: new messages, new reports (both channels
    add up), and the keys it overwrites. *)
Record update : Type := {
  add_messages : list message;
  add_research_reports : list (gmap string pyval);
  set_pending_save : option (option (gmap string pyval));
  set_topic : option pyval;
  set_depth : option pyval;
}.

Definition apply_update (st : AgentState) (u : update) : AgentState :=
  {| messages := messages st ++ add_messages u;
     model := model st;
     research_reports := research_reports st ++ add_research_reports u;
     pending_save :=
       match set_pending_save u with Some p => p | None => pending_save st end;
     topic := match set_topic u with Some t => Some t | None => topic st end;
     depth := match set_depth u with Some d => Some d | None => depth st end;
     report := report st |}.

(** The view of the state that [should_continue] and
    [save_confirm_node] read. *)
Definition routing_view (st : AgentState) : Nodes.state :=
  Nodes.State (messages st) (research_reports st).

(** The dict of [save_confirm_node] as a dict of this graph. *)
Definition of_save_update (u : Nodes.update) : update :=
  {| add_messages := Nodes.add_messages u;
     add_research_reports := [];
     set_pending_save := Nodes.set_pending_save u;
     set_topic := None; set_depth := None |}.

(** The first call of the turn with this name. *)
Definition first_call (name : string) (tcs : list tool_call) : option tool_call :=
  head (filter (λ tc, tc_name tc = name) tcs).

(** [prepare_research_node] *)
Definition prepare_research_node (st : AgentState) : update :=
  let call : option tool_call :=
    tcs ← last (messages st) ≫= tool_calls_of; first_call "deep_research" tcs in
  let topic := match call with
               | Some tc => default (PStr "") (tc_args tc !! "topic")
               | None => PStr ""
               end in
  let depth := match call with
               | Some tc => default (PStr "standard") (tc_args tc !! "depth")
               | None => PStr "standard"
               end in
  let tool_call_id := match call with Some tc => tc_id tc | None => "" end in
  if truthy topic then
    {| add_messages := []; add_research_reports := []; set_pending_save := None;
       set_topic := Some topic; set_depth := Some depth |}
  else
    {| add_messages :=
         [ToolMessage "No research topic provided."
                      (if decide (tool_call_id = "") then "unknown" else tool_call_id)
                      "deep_research"];
       add_research_reports := []; set_pending_save := None;
       set_topic := Some (PStr ""); set_depth := Some (PStr "standard") |}.

(** [should_run_research] *)
Definition should_run_research (st : AgentState) : string :=
  match topic st with
  | Some t => if truthy t then "deep_research" else "agent"
  | None => "agent"
  end.

(** [should_continue_after_save_confirm] *)
Definition should_continue_after_save_confirm (st : AgentState) : string :=
  match pending_save st with
  | Some p => if decide (p = ∅) then "agent" else "save_to_db"
  | None => "agent"
  end.

(** The loop of [save_to_db_node] and [process_research_result_node]
    over [reversed(messages)]: in each message the id of its first call
    with this name, until an id that is not empty is found. *)
Fixpoint scan_call_id (name : string) (reversed : list message) (tool_call_id : string)
    : string :=
  match reversed with
  | [] => tool_call_id
  | msg :: reversed =>
      let tool_call_id :=
        match tool_calls_of msg ≫= first_call name return string with
        | Some tc => tc_id tc
        | None => tool_call_id
        end in
      if decide (tool_call_id = "") then scan_call_id name reversed tool_call_id
      else tool_call_id
  end.

Definition call_id (name : string) (msgs : list message) : string :=
  scan_call_id name (reverse msgs) "".

Section Formatting.

(** [str(v)] for a float, a list or a dict, and [json.dumps] of a dict
    given by its items in order: the interpreter's. *)
Variable str_other : pyval → string.
Variable json_dumps : list (string * pyval) → string.

(** What an f-string puts for [{v}]. *)
Definition format (v : pyval) : string :=
  match v with
  | PStr s => s
  | PInt z => pretty z
  | PBool true => "True"
  | PBool false => "False"
  | PNone => "None"
  | _ => str_other v
  end.

(** [save_to_db_node] *)
Definition save_to_db_node (st : AgentState) : update :=
  let tool_call_id := call_id "save_report" (messages st) in
  let pending :=
    match pending_save st with
    | Some p => if decide (p = ∅) then None else Some p
    | None => None
    end in
  match pending with
  | None =>
      {| add_messages := [ToolMessage "No report to save." tool_call_id "save_report"];
         add_research_reports := []; set_pending_save := Some None;
         set_topic := None; set_depth := None |}
  | Some pending =>
      let report_title := default (PStr "Untitled Report") (pending !! "title") in
      {| add_messages :=
           [ToolMessage
              (json_dumps
                 [("status", PStr "saved");
                  ("title", report_title);
                  ("message", PStr ("Research report '" +:+ format report_title +:+
                                    "' has been saved to the database."))])
              tool_call_id "save_report"];
         add_research_reports := []; set_pending_save := None;
         set_topic := None; set_depth := None |}
  end.

(** What [for ... in enumerate(v, 1)] goes through.  The characters of a
    string and the keys of a dict in their order are not modelled
    ([None]). *)
Definition iterate (v : pyval) : option (exc (list pyval)) :=
  match v with
  | PList l => Some (Ok l)
  | PStr s => if decide (s = "") then Some (Ok []) else None
  | PDict d => if decide (d = ∅) then Some (Ok []) else None
  | v => Some (Raise (Exn "TypeError" ("'" +:+ type_name v +:+ "' object is not iterable")))
  end.

(** [len(v)] of a value that is truthy; the length of a string counts
    code points and is not modelled. *)
Definition len (v : pyval) : option (exc nat) :=
  match v with
  | PList l => Some (Ok (length l))
  | PDict d => Some (Ok (size d))
  | PStr _ => None
  | v => Some (Raise (Exn "TypeError"
                        ("object of type '" +:+ type_name v +:+ "' has no len()")))
  end.

(** One line per finding, numbered from 1. *)
Definition finding_lines (findings : list pyval) : list string :=
  imap (λ i finding,
    let insight :=
      match finding with
      | PDict d => default (PStr "") (d !! "insight")
      | v => PStr (format v)
      end in
    pretty (S i) +:+ ". " +:+ format insight) findings.

(** The parts of the summary of a report that is there. *)
Definition report_parts (report : gmap string pyval) : option (exc (list string)) :=
  let header :=
    "**Research Report: " +:+ format (default (PStr "Untitled") (report !! "title")) +:+
    "**" +:+ ResearchGraph.nl +:+ ResearchGraph.nl +:+
    format (default (PStr "No summary available.") (report !! "summary")) +:+
    ResearchGraph.nl +:+ ResearchGraph.nl +:+ "**Key Findings:**" +:+ ResearchGraph.nl in
  match iterate (default (PList []) (report !! "key_findings")) with
  | None => None
  | Some (Raise e) => Some (Raise e)
  | Some (Ok findings) =>
      let parts := header :: finding_lines findings in
      let sources := default (PList []) (report !! "sources") in
      if truthy sources then
        match len sources with
        | None => None
        | Some (Raise e) => Some (Raise e)
        | Some (Ok n) =>
            Some (Ok (parts ++
              [ResearchGraph.nl +:+ ResearchGraph.nl +:+ "**Sources:** " +:+ pretty n +:+
               " sources referenced"]))
        end
      else Some (Ok parts)
  end.

(** [process_research_result_node]; [None] only where [iterate] or
    [len] is. *)
Definition process_research_result_node (st : AgentState) : option (exc update) :=
  let tool_call_id := call_id "deep_research" (messages st) in
  let report :=
    match report st with
    | Some r => if decide (r = ∅) then None else Some r
    | None => None
    end in
  let reply (parts : list string) (reports : list (gmap string pyval)) :=
    {| add_messages :=
         [ToolMessage (String.concat ResearchGraph.nl parts) tool_call_id "deep_research"];
       add_research_reports := reports; set_pending_save := None;
       set_topic := None; set_depth := None |} in
  match report with
  | Some r =>
      match report_parts r with
      | None => None
      | Some (Raise e) => Some (Raise e)
      | Some (Ok parts) => Some (Ok (reply parts [r]))
      end
  | None => Some (Ok (reply ["Research completed but no report was generated."] []))
  end.

End Formatting.

(** [SYSTEM_PROMPT] *)
Definition SYSTEM_PROMPT : string :=
  "You are a helpful AI assistant with advanced research capabilities. " +:+
  "You can:" +:+ ResearchGraph.nl +:+
  "- Answer questions and have conversations" +:+ ResearchGraph.nl +:+
  "- Get the current time and do calculations" +:+ ResearchGraph.nl +:+
  "- Search the web with tavily_search for quick lookups" +:+ ResearchGraph.nl +:+
  "- Create structured task plans with create_plan" +:+ ResearchGraph.nl +:+
  "- Launch deep research investigations with deep_research (spawns parallel searches, produces structured reports)" +:+ ResearchGraph.nl +:+
  "- Save research reports to the database with save_report" +:+
  ResearchGraph.nl +:+ ResearchGraph.nl +:+
  "When a user asks for in-depth research on a topic, use the deep_research tool. " +:+
  "For quick factual lookups, use tavily_search. " +:+
  "Be concise and helpful in your responses.".

(** A chunk that [retrieve_documents] returns. *)
Record document : Type := { doc_filename : string; doc_content : string }.

Definition content_of (m : message) : string :=
  match m with
  | HumanMessage c | SystemMessage c | AIMessage c _ | ToolMessage c _ _ => c
  end.

Definition is_system (m : message) : bool :=
  match m with
  | SystemMessage _ => true
  | _ => false
  end.

(** The configuration of a model key ([MODEL_CONFIG]). *)
Record llm_config : Type := {
  llm_model : string;
  reasoning_effort : option string;
}.

Definition MODEL_CONFIG : gmap string llm_config :=
  {[ "gpt-4.1-mini" := {| llm_model := "gpt-4.1-mini"; reasoning_effort := None |};
     "gpt-5-nano-high" := {| llm_model := "gpt-5-nano"; reasoning_effort := Some "high" |};
     "gpt-5-nano-medium" := {| llm_model := "gpt-5-nano"; reasoning_effort := Some "medium" |};
     "gpt-5-nano-low" := {| llm_model := "gpt-5-nano"; reasoning_effort := Some "low" |};
     "gpt-5-nano-minimal" := {| llm_model := "gpt-5-nano"; reasoning_effort := Some "minimal" |} ]}.

Definition DEFAULT_MODEL : string := "gpt-4.1-mini".

(** [get_llm]: the arguments [ChatOpenAI] is built with. *)
Definition get_llm (model_key : string) : llm_config :=
  default {| llm_model := "gpt-4.1-mini"; reasoning_effort := None |}
          (MODEL_CONFIG !! model_key).

Section Models.

(** [retrieve_documents(query, top_k=3)] and the chat model with its
    bound tools, from the arguments it is built with and the messages
    it is invoked on. *)
Variable retrieve_documents : string → exc (list document).
Variable invoke : llm_config → list string → list message → exc message.

(** [get_rag_context] *)
Definition get_rag_context (st : AgentState) : string :=
  match last (messages st) with
  | None => ""
  | Some last_message =>
      let query := content_of last_message in
      if decide (query = "") then ""
      else
        match retrieve_documents query with
        | Ok ((_ :: _) as docs) =>
            String.concat
              (ResearchGraph.nl +:+ ResearchGraph.nl +:+ "---" +:+
               ResearchGraph.nl +:+ ResearchGraph.nl)
              ((λ doc, "[Source: " +:+ doc_filename doc +:+ "]" +:+ ResearchGraph.nl +:+
                       doc_content doc) <$> docs)
        | _ => ""
        end
  end.

(** [retrieve_node]: the value of the key [messages] in the dict it
    returns, [None] for the empty dict. *)
Definition retrieve_node (st : AgentState) : option (list message) :=
  let context := get_rag_context st in
  if decide (context = "") then None
  else
    let system_msg :=
      SystemMessage
        (SYSTEM_PROMPT +:+ ResearchGraph.nl +:+ ResearchGraph.nl +:+
         "Use the following context from uploaded documents " +:+
         "to help answer the user's question. If the context is not relevant, you can ignore it." +:+
         ResearchGraph.nl +:+ ResearchGraph.nl +:+
         "Context:" +:+ ResearchGraph.nl +:+ context) in
    match messages st with
    | SystemMessage _ :: _ => None
    | messages => Some (system_msg :: messages)
    end.

(** The messages that [agent_node] invokes the model on. *)
Definition agent_input (msgs : list message) : list message :=
  if existsb is_system msgs then msgs
  else SystemMessage SYSTEM_PROMPT :: msgs.

(** [agent_node] *)
Definition agent_node (st : AgentState) : step update :=
  let llm := invoke (get_llm (default DEFAULT_MODEL (model st))) ToolRegistry.ALL_TOOLS in
  call (llm (agent_input (messages st))) (λ response,
    Return {| add_messages := [response]; add_research_reports := [];
              set_pending_save := None; set_topic := None; set_depth := None |}).

End Models.

(** The nodes of [build_graph], with [START] and [END]. *)
Inductive node : Type :=
  | START | retrieve | agent | tools | prepare_research | deep_research
  | process_research_result | save_confirm | save_to_db | END.

(** The mappings of the three conditional edges. *)
Definition agent_edges : gmap string node :=
  {[ "tools" := tools; "deep_research" := prepare_research;
     "save_confirm" := save_confirm; "end" := END ]}.

Definition prepare_research_edges : gmap string node :=
  {[ "deep_research" := deep_research; "agent" := agent ]}.

Definition save_confirm_edges : gmap string node :=
  {[ "save_to_db" := save_to_db; "agent" := agent ]}.

End Agent.

(** ** The stream endpoint: reading the input messages *)

Module ViewsStream.

Section Parse.

(** The constructors of LangChain's message classes, which validate
    their arguments: [HumanMessage(content=..)], [AIMessage(content=..,
    tool_calls=..)], [ToolMessage(content=.., tool_call_id=.., name=..)]
    and [SystemMessage(content=..)]. *)
Variable human : pyval → exc message.
Variable ai : pyval → pyval → exc message.
Variable tool : pyval → pyval → pyval → exc message.
Variable system : pyval → exc message.

(** [msg.get("type", msg.get("role", "human"))] *)
Definition msg_type (msg : gmap string pyval) : pyval :=
  default (default (PStr "human") (msg !! "role")) (msg !! "type").

(** One turn of the loop: the message to append, if any. *)
Definition parse_message (msg : pyval) : exc (option message) :=
  match msg with
  | PDict msg =>
      let msg_type := msg_type msg in
      let content := default (PStr "") (msg !! "content") in
      if eq_str msg_type "human" then Some <$> human content
      else if eq_str msg_type "ai" then
        Some <$> ai content (default (PList []) (msg !! "tool_calls"))
      else if eq_str msg_type "tool" then
        Some <$> tool content (default (PStr "") (msg !! "tool_call_id"))
                              (default (PStr "") (msg !! "name"))
      else if eq_str msg_type "system" then Some <$> system content
      else Ok None
  | v => Raise (Exn "AttributeError"
                  ("'" +:+ type_name v +:+ "' object has no attribute 'get'"))
  end.

(** [parse_input_messages] *)
Fixpoint parse_input_messages (raw_messages : list pyval) : exc (list message) :=
  match raw_messages with
  | [] => Ok []
  | msg :: raw_messages =>
      parsed ← parse_message msg;
      messages ← parse_input_messages raw_messages;
      Ok (match parsed with Some m => m :: messages | None => messages end)
  end.

End Parse.

End ViewsStream.

(** ** Routing after the turn step *)

Module NodesSpec.
Import Schemas LangGraph Nodes.

(** Some tool call of the turn has this name. *)
Definition has_call (name : string) (tcs : list tool_call) : Prop :=
  ∃ tc, tc ∈ tcs ∧ tc_name tc = name.

(** The branch a sentinel tool stands for ([tools.py]: the two tools of
    [ALL_TOOLS] that are not in [SIMPLE_TOOLS]). *)
Definition sentinel_branch (name : string) : option string :=
  if decide (name = "deep_research") then Some "deep_research"
  else if decide (name = "save_report") then Some "save_confirm"
  else None.

Lemma index_last {A : Type} (l : list A) (x : A) :
  last l = Some x → index l (-1) = Ok x.
Proof.
  intros Hl. unfold index.
  assert (Hn : (0 < length l)%nat).
  { destruct l; [discriminate | simpl; lia]. }
  replace (-1 <? 0) with true by reflexivity.
  assert (Hpos : Z.to_nat (Z.of_nat (length l) + -1) = pred (length l)) by lia.
  rewrite Hpos.
  replace ((0 <=? Z.of_nat (length l) + -1) && (Z.of_nat (length l) + -1 <? Z.of_nat (length l)))
    with true by (symmetry; apply andb_true_iff; split; lia).
  rewrite last_lookup in Hl. by rewrite Hl.
Qed.

Lemma index_nil {A : Type} (k : Z) :
  index (@nil A) k = Raise (Exn "IndexError" "list index out of range").
Proof.
  unfold index. simpl.
  destruct (k <? 0) eqn:Hk; destruct (_ && _) eqn:Hb; try reflexivity;
    apply andb_true_iff in Hb; lia.
Qed.

Lemma elem_of_tool_names (name : string) (tcs : list tool_call) :
  name ∈ (list_to_set (tc_name <$> tcs) : gset string) ↔ has_call name tcs.
Proof.
  rewrite elem_of_list_to_set, list_elem_of_fmap. unfold has_call.
  split; intros (tc & H1 & H2); exists tc; auto.
Qed.

Lemma should_continue_calls (st : state) (m : message) (tcs : list tool_call) :
  last (messages st) = Some m →
  tool_calls_of m = Some tcs →
  tcs ≠ [] →
  should_continue st = Ok
    (if decide ("deep_research" ∈ (list_to_set (tc_name <$> tcs) : gset string))
     then "deep_research"
     else if decide ("save_report" ∈ (list_to_set (tc_name <$> tcs) : gset string))
     then "save_confirm"
     else "tools").
Proof.
  intros Hl Hm Hne. unfold should_continue, last_message.
  rewrite (index_last _ _ Hl). simpl. rewrite Hm.
  destruct tcs as [|tc tcs]; [done |].
  cbv zeta. by repeat case_decide.
Qed.

Lemma should_continue_no_calls (st : state) (m : message) :
  last (messages st) = Some m →
  tool_calls_of m = None ∨ tool_calls_of m = Some [] →
  should_continue st = Ok "end".
Proof.
  intros Hl Hm. unfold should_continue, last_message.
  rewrite (index_last _ _ Hl). simpl. by destruct Hm as [-> | ->].
Qed.

Lemma should_continue_empty (st : state) :
  messages st = [] →
  should_continue st = Raise (Exn "IndexError" "list index out of range").
Proof.
  intros E. unfold should_continue, last_message. by rewrite E, index_nil.
Qed.

Lemma has_call_nonempty (name : string) (tcs : list tool_call) :
  has_call name tcs → tcs ≠ [].
Proof. intros (tc & H & _) ->. by apply elem_of_nil in H. Qed.

(** C1. After the turn step, [should_continue] applies the priority order
    deep_research, then save_report, then any other tool call, then the
    terminal branch; a turn that holds a sentinel call and another tool
    call goes to the branch of a sentinel of that turn, never to the
    execution of real tools. *)
Theorem should_continue_priority (st : state) (m : message) :
  last (messages st) = Some m →
  (∀ tcs, tool_calls_of m = Some tcs →
     has_call "deep_research" tcs →
     should_continue st = Ok "deep_research")
  ∧ (∀ tcs, tool_calls_of m = Some tcs →
     ¬ has_call "deep_research" tcs → has_call "save_report" tcs →
     should_continue st = Ok "save_confirm")
  ∧ (∀ tcs, tool_calls_of m = Some tcs → tcs ≠ [] →
     ¬ has_call "deep_research" tcs → ¬ has_call "save_report" tcs →
     should_continue st = Ok "tools")
  ∧ (tool_calls_of m = None ∨ tool_calls_of m = Some [] →
     should_continue st = Ok "end")
  ∧ (∀ tcs s o, tool_calls_of m = Some tcs →
     s ∈ tcs → o ∈ tcs →
     is_Some (sentinel_branch (tc_name s)) →
     sentinel_branch (tc_name o) = None →
     should_continue st ≠ Ok "tools" ∧
     ∃ s' b, s' ∈ tcs ∧ sentinel_branch (tc_name s') = Some b ∧
             should_continue st = Ok b).
Proof.
  intros Hl.
  assert (Hdr : ∀ tcs, tool_calls_of m = Some tcs →
     has_call "deep_research" tcs → should_continue st = Ok "deep_research").
  { intros tcs Hm H.
    rewrite (should_continue_calls _ _ _ Hl Hm (has_call_nonempty _ _ H)).
    rewrite decide_True; [done | by apply elem_of_tool_names]. }
  assert (Hsr : ∀ tcs, tool_calls_of m = Some tcs →
     ¬ has_call "deep_research" tcs → has_call "save_report" tcs →
     should_continue st = Ok "save_confirm").
  { intros tcs Hm Hn H.
    rewrite (should_continue_calls _ _ _ Hl Hm (has_call_nonempty _ _ H)).
    rewrite decide_False by (by rewrite elem_of_tool_names).
    rewrite decide_True; [done | by apply elem_of_tool_names]. }
  split; [exact Hdr |]. split; [exact Hsr |]. split; [| split].
  - intros tcs Hm Hne Hn1 Hn2.
    rewrite (should_continue_calls _ _ _ Hl Hm Hne).
    by rewrite !decide_False by (by rewrite elem_of_tool_names).
  - by apply should_continue_no_calls.
  - intros tcs s o Hm Hs Ho [b Hb] _.
    destruct (decide ("deep_research" ∈ (list_to_set (tc_name <$> tcs) : gset string)))
      as [Hd | Hd]; rewrite elem_of_tool_names in Hd.
    + rewrite (Hdr _ Hm Hd). split; [done |].
      destruct Hd as (s' & Hs' & Hname). exists s', "deep_research".
      split; [done |]. split; [| done].
      unfold sentinel_branch. by rewrite Hname.
    + unfold sentinel_branch in Hb.
      destruct (decide (tc_name s = "deep_research")) as [E | E].
      { exfalso. apply Hd. by exists s. }
      destruct (decide (tc_name s = "save_report")) as [E' | E']; [| done].
      assert (Hsave : has_call "save_report" tcs) by (by exists s).
      rewrite (Hsr _ Hm Hd Hsave). split; [done |].
      exists s, "save_confirm". split; [done |]. split; [| done].
      unfold sentinel_branch. by rewrite decide_False, decide_True.
Qed.

(** The turn of [test_should_continue_deep_research_takes_priority]. *)
Definition mixed_turn : state :=
  State [HumanMessage "research AI";
         AIMessage "" [ToolCall "calculator" "tc-1" {["expression" := PStr "1+1"]};
                       ToolCall "deep_research" "tc-2" {["topic" := PStr "AI"]}]]
        [].

Lemma should_continue_priority_witness :
  should_continue mixed_turn = Ok "deep_research".
Proof.
  destruct (should_continue_priority mixed_turn
              (AIMessage "" [ToolCall "calculator" "tc-1" {["expression" := PStr "1+1"]};
                             ToolCall "deep_research" "tc-2" {["topic" := PStr "AI"]}])
              eq_refl) as [H _].
  apply (H _ eq_refl).
  exists (ToolCall "deep_research" "tc-2" {["topic" := PStr "AI"]}).
  split; [| reflexivity]. apply list_elem_of_In. simpl. auto.
Defined.

(** *** Save-confirmation: which report the index resolves to *)

(** The [k]-th most recent report of a list kept oldest first, counting
    from 0. *)
Definition most_recent {A : Type} (k : nat) (reports : list A) : option A :=
  reverse reports !! k.

Lemma index_from_end {A : Type} (l : list A) (k : nat) :
  (k < length l)%nat →
  index l (- (Z.of_nat k + 1)) = from_option Ok (Raise (Exn "IndexError" "list index out of range")) (most_recent k l).
Proof.
  intros Hk. unfold index, most_recent.
  replace (- (Z.of_nat k + 1) <? 0) with true by (symmetry; apply Z.ltb_lt; lia).
  set (pos := Z.of_nat (length l) + - (Z.of_nat k + 1)).
  replace ((0 <=? pos) && (pos <? Z.of_nat (length l))) with true
    by (symmetry; apply andb_true_iff; split; lia).
  rewrite reverse_lookup by done.
  replace (Z.to_nat pos) with (length l - S k)%nat by lia.
  by destruct (l !! _).
Qed.

(** For an index that is not negative the step resolves it as the
    specification says: the [(i+1)]-th most recent report, the oldest one
    when [i] is past the end. *)
Lemma selected_report_clamped (st : state) (i : Z) :
  research_reports st ≠ [] →
  requested_index (messages st) = PInt i →
  0 ≤ i →
  ∃ report,
    selected_report st = Ok report ∧
    most_recent (Z.to_nat (i `min` (Z.of_nat (length (research_reports st)) - 1)))
                (research_reports st) = Some report ∧
    (Z.of_nat (length (research_reports st)) ≤ i →
     head (research_reports st) = Some report).
Proof.
  intros Hne Hi Hpos. unfold selected_report. rewrite Hi. simpl.
  set (n := length (research_reports st)).
  assert (Hn : (0 < n)%nat).
  { subst n. destruct (research_reports st); [done | simpl; lia]. }
  set (k := Z.to_nat (i `min` (Z.of_nat n - 1))).
  assert (Hk : (k < n)%nat) by lia.
  replace (- (i `min` (Z.of_nat n - 1) + 1)) with (- (Z.of_nat k + 1)) by lia.
  rewrite (index_from_end _ k Hk).
  destruct (most_recent k (research_reports st)) as [report |] eqn:E.
  - exists report. split; [done |]. split; [done |].
    intros Hbig. unfold most_recent in E.
    rewrite reverse_lookup in E by done.
    replace (length (research_reports st) - S k)%nat with 0%nat in E by lia.
    by rewrite head_lookup.
  - unfold most_recent in E. apply lookup_ge_None in E.
    rewrite length_reverse in E. lia.
Qed.

Definition report_named (name : string) : gmap string pyval :=
  {[ "title" := PStr name; "summary" := PStr "" ]}.

(** A turn that asks to save the report at index [i], after three
    research runs that produced A, B and C in that order. *)
Definition three_reports (i : Z) : state :=
  State [AIMessage "" [ToolCall "save_report" "tc-1" {["report_index" := PInt i]}]]
        [report_named "A"; report_named "B"; report_named "C"].

Example save_index_0 : selected_report (three_reports 0) = Ok (report_named "C").
Proof. reflexivity. Qed.

Example save_index_5 : selected_report (three_reports 5) = Ok (report_named "A").
Proof. reflexivity. Qed.

(** C5. The clamp has no lower bound: at index -4 with three reports the
    step indexes the list at 3 and raises [IndexError] instead of
    resolving to a report; the node fails before it builds a payload. *)
Theorem save_confirm_negative_index :
  selected_report (three_reports (-4)) =
    Raise (Exn "IndexError" "list index out of range")
  ∧ save_confirm_node (three_reports (-4)) None =
    Fail (Exn "IndexError" "list index out of range")
  ∧ selected_report (three_reports 0) = Ok (report_named "C")
  ∧ selected_report (three_reports 5) = Ok (report_named "A").
Proof. repeat split; reflexivity. Qed.

End NodesSpec.

(** ** The calculator: whitelist first, then [eval] *)

Module ToolsSpec.
Import Tools.

(** The characters the specification lets through: the digits,
    [+ - * / ( ) .] and the space. *)
Definition whitelist : list ascii :=
  ["0"; "1"; "2"; "3"; "4"; "5"; "6"; "7"; "8"; "9";
   "+"; "-"; "*"; "/"; "("; ")"; "."; " "]%char.

Definition invalid_characters : string :=
  "Error: Invalid characters in expression. Only basic arithmetic is supported.".

Lemma allowed_chars_whitelist (c : ascii) : c ∈ allowed_chars ↔ c ∈ whitelist.
Proof.
  unfold allowed_chars, whitelist. rewrite elem_of_list_to_set. simpl chars.
  rewrite !elem_of_cons, !elem_of_nil. tauto.
Qed.

Lemma all_allowed_false (l : list ascii) (c : ascii) :
  c ∈ l → c ∉ whitelist →
  forallb (λ c, bool_decide (c ∈ allowed_chars)) l = false.
Proof.
  intros Hin Hout. induction l as [| d l IH]; simpl.
  - by apply elem_of_nil in Hin.
  - apply elem_of_cons in Hin as [<- | Hin].
    + rewrite bool_decide_eq_false_2; [done |].
      by rewrite allowed_chars_whitelist.
    + rewrite (IH Hin). apply andb_false_r.
Qed.

Lemma all_allowed_true (l : list ascii) :
  Forall (λ c, c ∈ whitelist) l →
  forallb (λ c, bool_decide (c ∈ allowed_chars)) l = true.
Proof.
  induction 1 as [| c l Hc _ IH]; simpl; [done |].
  rewrite IH, bool_decide_eq_true_2; [done |].
  by rewrite allowed_chars_whitelist.
Qed.

(** A rejected expression never reaches [eval]. *)
Lemma calculator_rejects (builtin : string → exc string) (expression : string) (c : ascii) :
  c ∈ chars expression → c ∉ whitelist →
  calculator builtin expression = ([], invalid_characters).
Proof.
  intros Hin Hout. unfold calculator.
  by rewrite (all_allowed_false _ _ Hin Hout).
Qed.

(** An exception of [eval] becomes an error string. *)
Lemma calculator_catches (builtin : string → exc string) (expression : string) (e : exn) :
  Forall (λ c, c ∈ whitelist) (chars expression) →
  eval_str builtin expression = Raise e →
  calculator builtin expression =
    ([Eval expression], "Error evaluating expression: " +:+ exn_msg e).
Proof.
  intros Hall He. unfold calculator.
  by rewrite (all_allowed_true _ Hall), He.
Qed.

(** C3. Whatever the interpreter does outside integer arithmetic, the
    calculator rejects an expression with a character off the whitelist
    without calling [eval]; turns an exception of [eval] on a whitelisted
    expression into an error string, as for ["10 / 0"]; and returns
    ["14"] for ["2 + 3 * 4"]. *)
Theorem calculator_whitelist (builtin : string → exc string) :
  (∀ expression c, c ∈ chars expression → c ∉ whitelist →
     calculator builtin expression = ([], invalid_characters))
  ∧ calculator builtin "__import__('os')" = ([], invalid_characters)
  ∧ (∀ expression e,
       Forall (λ c, c ∈ whitelist) (chars expression) →
       eval_str builtin expression = Raise e →
       calculator builtin expression =
         ([Eval expression], "Error evaluating expression: " +:+ exn_msg e))
  ∧ calculator builtin "10 / 0" =
      ([Eval "10 / 0"], "Error evaluating expression: division by zero")
  ∧ calculator builtin "2 + 3 * 4" = ([Eval "2 + 3 * 4"], "14").
Proof.
  split; [apply calculator_rejects |].
  split; [by vm_compute |].
  split; [apply calculator_catches |].
  split; by vm_compute.
Qed.

(** The whitelist is not a parser: a whitelisted string that is no
    expression reaches [eval], and the calculator reports what [eval]
    raised. *)
Lemma calculator_whitelist_witness :
  calculator (λ _, Raise (Exn "SyntaxError" "invalid syntax (<string>, line 1)")) "2 +" =
    ([Eval "2 +"], "Error evaluating expression: invalid syntax (<string>, line 1)")
  ∧ calculator (λ _, Ok "") "2 ^ 3" = ([], invalid_characters).
Proof.
  pose proof (calculator_whitelist
    (λ _, Raise (Exn "SyntaxError" "invalid syntax (<string>, line 1)"))) as (_ & _ & H & _).
  pose proof (calculator_whitelist (λ _, Ok "")) as (R & _).
  split.
  - apply (H "2 +" (Exn "SyntaxError" "invalid syntax (<string>, line 1)"));
      [| reflexivity].
    unfold whitelist. simpl chars. repeat constructor; rewrite !elem_of_cons; tauto.
  - apply (R "2 ^ 3" "^"%char).
    + simpl chars. rewrite !elem_of_cons; tauto.
    + unfold whitelist. rewrite !elem_of_cons, elem_of_nil.
      intros H'; repeat destruct H' as [H' | H']; discriminate || done.
Defined.

End ToolsSpec.

(** ** Properties of the research sub-pipeline *)

Module ResearchGraphSpec.
Import Schemas LangGraph ResearchGraph.

#[local] Open Scope nat_scope.

(** *** Orchestrate: how many instructions *)

Lemma depth_width_table :
  depth_width "quick" = 3 ∧ depth_width "standard" = 5 ∧ depth_width "deep" = 8
  ∧ ∀ depth, depth ≠ "quick" → depth ≠ "standard" → depth ≠ "deep" →
      depth_width depth = 5.
Proof.
  repeat split; try reflexivity.
  intros depth H1 H2 H3. unfold depth_width, DEPTH_MAP.
  rewrite !lookup_insert_ne by done. by rewrite lookup_singleton_ne.
Qed.

(** The instructions of a state that has topics and a depth. *)
Definition research_state (topics : list string) (depth : string) : DeepResearchState :=
  {| topic := Some "AI safety"; depth := Some depth;
     clarified_topics := Some topics; explorer_instructions := None;
     search_results := []; report := None; status := Some "clarified" |}.

Definition instruction (q : string) : ExplorerInstruction :=
  {| query := q; search_focus := "general"; context := "" |}.

Definition sample_report : ResearchReport :=
  {| title := "AI Report"; summary := "A report about AI";
     key_findings := [{| insight := "AI is growing"; evidence := "Market data";
                         finding_sources := ["url1"] |}];
     sources := ["url1"]; tags := ["AI"]; methodology := "Web search" |}.

(** The dict [{"status": s}]. *)
Definition status_only (s : string) : update :=
  {| set_clarified_topics := None; set_explorer_instructions := None;
     add_search_results := []; set_report := None; set_status := Some s |}.

(** The bound that the orchestrate step puts on its instructions. *)
Definition explorer_bound (st : DeepResearchState) : nat :=
  length (default [] (clarified_topics st))
    `min` depth_width (default "standard" (depth st)).

Lemma orchestrate_node_returns (instruct : string → exc (list ExplorerInstruction))
    (st : DeepResearchState) (u : update) :
  orchestrate_node instruct st = Return u →
  ∃ result,
    instruct (orchestrate_prompt (explorer_bound st) (default [] (clarified_topics st)))
      = Ok result
    ∧ u = {| set_clarified_topics := None;
             set_explorer_instructions := Some (take (explorer_bound st) result);
             add_search_results := [];
             set_report := None;
             set_status := Some "orchestrated" |}.
Proof.
  unfold orchestrate_node. fold (explorer_bound st).
  destruct (instruct _) as [result | e]; simpl; [| discriminate].
  intros [= <-]. by exists result.
Qed.

(** Only [clarify] sets the topics and only [orchestrate] sets the
    instructions. *)
Lemma explore_keeps (search : string → exc pyval)
    (validate_result : pyval → pyval → pyval → pyval → exc SearchResult)
    (explorers : list ExplorerState) (st st' : DeepResearchState) :
  explore search validate_result st explorers = Ok st' →
  clarified_topics st' = clarified_topics st
  ∧ depth st' = depth st
  ∧ explorer_instructions st' = explorer_instructions st.
Proof.
  revert st. induction explorers as [| ex explorers IH]; intros st; simpl.
  - by intros [= <-].
  - intros H. by destruct (IH _ H) as (-> & -> & ->).
Qed.

(** The run invariant behind the count: before the first orchestrate
    there are no instructions, and afterwards they are within the bound
    of the state they are in. *)
Definition within_bound (c : node * DeepResearchState) : Prop :=
  match explorer_instructions c.2 with
  | Some instructions => length instructions ≤ explorer_bound c.2
  | None => True
  end
  ∧ (c.1 = START ∨ c.1 = clarify → explorer_instructions c.2 = None).

Lemma moves_within_bound (c c' : node * DeepResearchState) :
  moves c c' → within_bound c → within_bound c'.
Proof.
  unfold within_bound.
  intros Hmove [Hb Hnone]. destruct Hmove as
    [ st | suggest st v u Hu | instruct st u Hu Hsend | instruct st u Hu Hsend
    | search validate_result st st' Hexplore | synthesize st u Hu
    | st v u next Hu Hnext ]; simpl in *.
  - split; [done | auto].
  - unfold clarify_node in Hu.
    destruct (suggest _) as [subtopics | e]; simpl in Hu; [| discriminate].
    injection Hu as <-. simpl. rewrite Hnone by auto.
    split; [done |]. by intros [[=] | [=]].
  - apply orchestrate_node_returns in Hu as (result & _ & ->). simpl.
    split; [| by intros [[=] | [=]]].
    unfold explorer_bound at 2. simpl. fold (explorer_bound st).
    rewrite length_take. lia.
  - apply orchestrate_node_returns in Hu as (result & _ & ->). simpl.
    split; [| by intros [[=] | [=]]].
    unfold explorer_bound at 2. simpl. fold (explorer_bound st).
    rewrite length_take. lia.
  - apply explore_keeps in Hexplore as (Ht & Hd & Hi).
    unfold explorer_bound. rewrite Ht, Hd, Hi.
    split; [exact Hb | by intros [[=] | [=]]].
  - unfold synthesize_node in Hu.
    destruct (synthesize _) as [r | e]; simpl in Hu; [| discriminate].
    injection Hu as <-. simpl.
    split; [exact Hb | by intros [[=] | [=]]].
  - assert (Hkeep : set_clarified_topics u = None ∧ set_explorer_instructions u = None).
    { unfold review_node in Hu.
      repeat (match type of Hu with
              | context [match ?x with _ => _ end] => destruct x
              | context [if ?x then _ else _] => destruct x
              end; simpl in Hu; try discriminate);
        by injection Hu as <-. }
    destruct Hkeep as [Ht Hi]. unfold explorer_bound. simpl. rewrite Ht, Hi.
    split; [exact Hb |].
    unfold after_review, should_continue_review in Hnext.
    case_decide; injection Hnext as <-; by intros [[=] | [=]].
Qed.

Lemma reachable_within_bound (topic depth : string) (c : node * DeepResearchState) :
  reachable topic depth c → within_bound c.
Proof.
  unfold reachable. revert c. apply rtc_ind_r.
  - split; [done | by intros _].
  - intros c c' _ Hmove IH. by eapply moves_within_bound.
Qed.

(** A run in which the model gives two instructions when it is asked
    for three: it ends approved, with those two. *)
Lemma short_run :
  ∃ st, reachable "AI safety" "quick" (END, st)
        ∧ clarified_topics st = Some ["alignment"; "evaluation"; "governance"]
        ∧ depth st = Some "quick"
        ∧ explorer_instructions st = Some [instruction "q1"; instruction "q2"]
        ∧ status st = Some "approved".
Proof.
  eexists. split.
  - unfold reachable.
    eapply rtc_l; [apply moves_start |].
    eapply rtc_l.
    { apply (moves_clarify (λ _, Ok ["alignment"; "evaluation"; "governance"]) _
               (PList [])). reflexivity. }
    eapply rtc_l.
    { apply (moves_orchestrate (λ _, Ok [instruction "q1"; instruction "q2"]));
        [reflexivity | done]. }
    eapply rtc_l.
    { apply (moves_explorer (λ _, Ok (PStr "some text"))
               (λ _ _ _ _, Raise ValidationError)). reflexivity. }
    eapply rtc_l.
    { apply (moves_synthesize (λ _, Ok sample_report)). reflexivity. }
    eapply rtc_l.
    { apply (moves_review _ (PDict {["action" := PStr "approve"]})
               (status_only "approved") END); reflexivity. }
    apply rtc_refl.
  - repeat split; reflexivity.
Qed.

(** The model is asked for exactly [n] instructions and answers with a
    list of any length; the node cuts the list at [n] and never pads it:
    a run with three topics at depth quick in which the model gives two
    instructions ends approved with two instructions. *)
Lemma orchestrate_count_counterexample :
  ¬ (∀ topic depth st instructions,
       reachable topic depth (END, st) →
       explorer_instructions st = Some instructions →
       length instructions =
         length (default [] (clarified_topics st))
           `min` depth_width (default "standard" (ResearchGraph.depth st))).
Proof.
  intros H.
  destruct short_run as (st & Hrun & Ht & Hd & Hi & _).
  specialize (H _ _ _ _ Hrun Hi). rewrite Ht, Hd in H.
  vm_compute in H. discriminate.
Qed.

(** C2, amended. The orchestrate step keeps the first
    [min(topics, depth-width)] instructions of the model's answer: their
    number is the smaller of that bound and the length of the answer, so
    it is the bound whenever the model returned at least that many, and
    in every state of a run the instructions are within the bound.  The
    depth-width is 3 for quick, 5 for standard, 8 for deep and 5 for any
    other label. *)
Theorem orchestrate_count (instruct : string → exc (list ExplorerInstruction))
    (st : DeepResearchState) (result : list ExplorerInstruction) :
  let topics := default [] (clarified_topics st) in
  let n := length topics `min` depth_width (default "standard" (depth st)) in
  instruct (orchestrate_prompt n topics) = Ok result →
  (∃ instructions,
     orchestrate_node instruct st =
       Return {| set_clarified_topics := None;
                 set_explorer_instructions := Some instructions;
                 add_search_results := [];
                 set_report := None;
                 set_status := Some "orchestrated" |}
     ∧ instructions = take n result
     ∧ length instructions = length result `min` n
     ∧ length instructions ≤ n
     ∧ (n ≤ length result → length instructions = n))
  ∧ (∀ topic depth c instructions,
       reachable topic depth c →
       explorer_instructions c.2 = Some instructions →
       length instructions ≤
         length (default [] (clarified_topics c.2))
           `min` depth_width (default "standard" (ResearchGraph.depth c.2)))
  ∧ depth_width "quick" = 3 ∧ depth_width "standard" = 5 ∧ depth_width "deep" = 8
  ∧ ∀ depth, depth ≠ "quick" → depth ≠ "standard" → depth ≠ "deep" →
      depth_width depth = 5.
Proof.
  intros topics n Hres. split; [| split; [| apply depth_width_table]].
  - exists (take n result). unfold orchestrate_node.
    fold topics. fold n. rewrite Hres. simpl.
    rewrite length_take. repeat split; lia.
  - intros topic depth c instructions Hrun Hi.
    destruct (reachable_within_bound _ _ _ Hrun) as [Hb _].
    by rewrite Hi in Hb.
Qed.

Lemma orchestrate_count_witness :
  ∃ instructions,
    orchestrate_node (λ _, Ok [instruction "q1"; instruction "q2"; instruction "q3";
                               instruction "q4"])
                     (research_state ["a"; "b"; "c"; "d"; "e"] "quick") =
      Return {| set_clarified_topics := None;
                set_explorer_instructions := Some instructions;
                add_search_results := [];
                set_report := None;
                set_status := Some "orchestrated" |}
    ∧ length instructions = 3.
Proof.
  destruct (orchestrate_count
              (λ _, Ok [instruction "q1"; instruction "q2"; instruction "q3";
                        instruction "q4"])
              (research_state ["a"; "b"; "c"; "d"; "e"] "quick") _ eq_refl)
    as [(instructions & Hnode & _ & _ & _ & Hlen) _].
  exists instructions. split; [exact Hnode |]. apply Hlen. vm_compute. lia.
Defined.

(** *** Clarify: which topics a resume value selects *)

Lemma eq_str_spec (v : pyval) (s : string) : eq_str v s = true ↔ v = PStr s.
Proof.
  destruct v; simpl; try (split; [discriminate | by intros]).
  rewrite bool_decide_eq_true. split; [by intros -> | by intros [= ->]].
Qed.

Lemma id_in_spec (id : string) (ids : list pyval) :
  id_in id ids = true ↔ PStr id ∈ ids.
Proof.
  unfold id_in. rewrite existsb_exists. split.
  - intros (v & Hin & Heq). apply eq_str_spec in Heq as ->.
    by apply list_elem_of_In.
  - intros Hin. exists (PStr id). split; [by apply list_elem_of_In |].
    by apply eq_str_spec.
Qed.

#[local] Instance id_elem_of_dec (id : string) (ids : list pyval) :
  Decision (PStr id ∈ ids).
Proof.
  destruct (id_in id ids) eqn:E; [left | right].
  - by apply id_in_spec.
  - intros H. apply id_in_spec in H. congruence.
Defined.

(** The selection as the specification words it: of the suggested
    sub-topics, numbered from 0, those whose option id [topic_<i>] is an
    element of the resume value, when that value is a list. *)
Definition selected_labels (subtopics : list string) (v : pyval) : list string :=
  match v with
  | PList ids =>
      snd <$> filter (λ it, PStr ("topic_" +:+ pretty (fst it)) ∈ ids)
                     (imap (λ i t, (i, t)) subtopics)
  | _ => []
  end.

Definition clarified (subtopics : list string) (v : pyval) : list string :=
  match selected_labels subtopics v with
  | [] => subtopics
  | selected => selected
  end.

Lemma filter_options (ids : list pyval) (h : nat → nat) (subtopics : list string) :
  opt_label <$> filter (λ opt, id_in (opt_id opt) ids = true)
    (imap (λ i t, {| opt_id := "topic_" +:+ pretty (h i); opt_label := t;
                     opt_description := ""; opt_selected := true |}) subtopics)
  = snd <$> filter (λ it, PStr ("topic_" +:+ pretty (fst it)) ∈ ids)
                   (imap (λ i t, (h i, t)) subtopics).
Proof.
  revert h. induction subtopics as [| t subtopics IH]; intros h; [done |].
  rewrite !imap_cons, !filter_cons. simpl.
  specialize (IH (h ∘ S)).
  destruct (decide (id_in ("topic_" +:+ pretty (h 0)) ids = true)) as [Hin | Hout].
  - rewrite decide_True by (by apply id_in_spec). simpl. f_equal. exact IH.
  - rewrite decide_False by (by rewrite <- id_in_spec). exact IH.
Qed.

Lemma filter_none {A : Type} (P : A → Prop) `{∀ x, Decision (P x)} (l : list A) :
  (∀ x, ¬ P x) → filter P l = [].
Proof.
  intros HP. induction l as [| x l IH]; [done |].
  by rewrite filter_cons_False.
Qed.

Lemma clarify_node_resume (suggest : string → exc (list string))
    (st : DeepResearchState) (subtopics : list string) (v : pyval) :
  suggest (clarify_prompt (default "" (topic st))) = Ok subtopics →
  clarify_node suggest st (Some v) =
    Return {| set_clarified_topics := Some (clarified subtopics v);
              set_explorer_instructions := None;
              add_search_results := [];
              set_report := None;
              set_status := Some "clarified" |}.
Proof.
  intros Hs. unfold clarify_node. rewrite Hs. simpl.
  do 2 f_equal. unfold clarified, selected_labels, topic_options.
  destruct v as [| | | | | ids |];
    rewrite (filter_options _ id subtopics).
  6: by destruct (snd <$> _).
  all: by rewrite filter_none by (intros it; apply not_elem_of_nil).
Qed.

Lemma clarify_node_suspends (suggest : string → exc (list string))
    (st : DeepResearchState) (subtopics : list string) :
  suggest (clarify_prompt (default "" (topic st))) = Ok subtopics →
  ∃ payload,
    clarify_node suggest st None = Suspend payload
    ∧ payload_type payload = checkbox
    ∧ payload_options payload = Some (topic_options subtopics)
    ∧ opt_label <$> topic_options subtopics = subtopics.
Proof.
  intros Hs. unfold clarify_node. rewrite Hs. simpl.
  eexists. repeat split.
  unfold topic_options. rewrite fmap_imap.
  rewrite (imap_ext _ (const id)) by done.
  by rewrite imap_const, list_fmap_id.
Qed.

Lemma filter_ext_in {A : Type} (P Q : A → Prop)
    `{∀ x, Decision (P x)} `{∀ x, Decision (Q x)} (l : list A) :
  (∀ x, x ∈ l → P x ↔ Q x) → filter P l = filter Q l.
Proof.
  induction l as [| x l IH]; intros Hext; [done |].
  rewrite !filter_cons.
  rewrite IH by (intros y Hy; apply Hext; by right).
  destruct (decide (P x)) as [HP | HP], (decide (Q x)) as [HQ | HQ]; try done.
  - exfalso. apply HQ, Hext; [by left | done].
  - exfalso. apply HP, Hext; [by left | done].
Qed.

Lemma selected_labels_elem (subtopics : list string) (ids : list pyval) (t : string) :
  t ∈ selected_labels subtopics (PList ids) ↔
  ∃ i, subtopics !! i = Some t ∧ PStr ("topic_" +:+ pretty i) ∈ ids.
Proof.
  unfold selected_labels. rewrite list_elem_of_fmap. split.
  - intros ([i t'] & -> & Hin). apply list_elem_of_filter in Hin as [Hid Hin].
    apply elem_of_lookup_imap in Hin as (j & t'' & [= -> ->] & Hj).
    by exists j.
  - intros (i & Hi & Hid). exists (i, t). split; [done |].
    apply list_elem_of_filter. split; [done |].
    apply elem_of_lookup_imap. by exists i, t.
Qed.

Lemma selected_labels_ext (subtopics : list string) (ids ids' : list pyval) :
  (∀ i, i < length subtopics →
     PStr ("topic_" +:+ pretty i) ∈ ids ↔ PStr ("topic_" +:+ pretty i) ∈ ids') →
  selected_labels subtopics (PList ids) = selected_labels subtopics (PList ids').
Proof.
  intros Hext. unfold selected_labels. f_equal.
  apply filter_ext_in. intros [i t] Hin. simpl.
  apply elem_of_lookup_imap in Hin as (j & t' & [= -> ->] & Hj).
  apply Hext. by apply lookup_lt_Some in Hj.
Qed.

(** C4. Resumed with an empty list, the clarify step takes every
    suggested sub-topic: the clarified topics are the labels of the
    options it had put in the checkbox payload. *)
Theorem clarify_empty_selection (suggest : string → exc (list string))
    (st : DeepResearchState) (subtopics : list string) :
  suggest (clarify_prompt (default "" (topic st))) = Ok subtopics →
  (∃ payload,
     clarify_node suggest st None = Suspend payload
     ∧ payload_type payload = checkbox
     ∧ payload_options payload = Some (topic_options subtopics)
     ∧ opt_label <$> topic_options subtopics = subtopics)
  ∧ clarify_node suggest st (Some (PList [])) =
      Return {| set_clarified_topics := Some subtopics;
                set_explorer_instructions := None;
                add_search_results := [];
                set_report := None;
                set_status := Some "clarified" |}.
Proof.
  intros Hs. split; [by apply clarify_node_suspends |].
  rewrite (clarify_node_resume _ _ _ _ Hs). do 2 f_equal.
  unfold clarified, selected_labels.
  by rewrite filter_none by (intros it; apply not_elem_of_nil).
Qed.

Definition six_topics : list string :=
  ["alignment"; "evaluation"; "governance"; "interpretability"; "robustness";
   "misuse"].

Lemma clarify_empty_selection_witness :
  clarify_node (λ _, Ok six_topics) (research_state [] "quick") (Some (PList [])) =
    Return {| set_clarified_topics := Some six_topics;
              set_explorer_instructions := None;
              add_search_results := [];
              set_report := None;
              set_status := Some "clarified" |}.
Proof.
  exact (proj2 (clarify_empty_selection (λ _, Ok six_topics)
                  (research_state [] "quick") six_topics eq_refl)).
Defined.

(** C10. For any resume value, the clarified topics are the labels of
    the options whose ids are elements of the value when it is a list,
    and every suggested sub-topic when there is no such option, in
    particular when the value is no list; only the option ids that occur
    in the list matter, so an id of no option changes nothing. *)
Theorem clarify_selection (suggest : string → exc (list string))
    (st : DeepResearchState) (subtopics : list string) (v : pyval) :
  suggest (clarify_prompt (default "" (topic st))) = Ok subtopics →
  clarify_node suggest st (Some v) =
    Return {| set_clarified_topics := Some (clarified subtopics v);
              set_explorer_instructions := None;
              add_search_results := [];
              set_report := None;
              set_status := Some "clarified" |}
  ∧ (selected_labels subtopics v ≠ [] →
     clarified subtopics v = selected_labels subtopics v)
  ∧ (selected_labels subtopics v = [] → clarified subtopics v = subtopics)
  ∧ ((∀ ids, v ≠ PList ids) → clarified subtopics v = subtopics)
  ∧ (∀ ids t, v = PList ids →
       t ∈ selected_labels subtopics v ↔
       ∃ i, subtopics !! i = Some t ∧ PStr ("topic_" +:+ pretty i) ∈ ids)
  ∧ (∀ ids ids', v = PList ids →
       (∀ i, i < length subtopics →
          PStr ("topic_" +:+ pretty i) ∈ ids ↔ PStr ("topic_" +:+ pretty i) ∈ ids') →
       clarify_node suggest st (Some (PList ids')) = clarify_node suggest st (Some v)).
Proof.
  intros Hs. split; [by apply clarify_node_resume |].
  split; [| split; [| split; [| split]]].
  - unfold clarified. by destruct (selected_labels subtopics v).
  - unfold clarified. by intros ->.
  - intros Hv. unfold clarified.
    destruct v as [| | | | | ids |]; try done. by destruct (Hv ids).
  - intros ids t ->. apply selected_labels_elem.
  - intros ids ids' -> Hext.
    rewrite !(clarify_node_resume _ _ _ _ Hs). unfold clarified.
    by rewrite (selected_labels_ext _ _ _ Hext).
Qed.

(** The user ticks the second and the fourth topic; the value also holds
    an id of no option, a number, and one id twice. *)
Lemma clarify_selection_witness :
  clarify_node (λ _, Ok six_topics) (research_state [] "quick")
    (Some (PList [PStr "topic_3"; PStr "topic_9"; PInt 7; PStr "topic_1";
                  PStr "topic_3"])) =
    Return {| set_clarified_topics := Some ["evaluation"; "interpretability"];
              set_explorer_instructions := None;
              add_search_results := [];
              set_report := None;
              set_status := Some "clarified" |}.
Proof.
  exact (proj1 (clarify_selection (λ _, Ok six_topics) (research_state [] "quick")
                  six_topics _ eq_refl)).
Defined.

(** *** Review: approve, edit, redo *)

Lemma mapM_dump {A : Type} (validate : pyval → exc A) (dump : A → pyval) (l : list A) :
  (∀ x, validate (dump x) = Ok x) → mapM validate (dump <$> l) = Ok l.
Proof.
  intros Hx. induction l as [| x l IH]; [done |].
  rewrite fmap_cons.
  change (mapM validate (dump x :: (dump <$> l)))
    with (y ← validate (dump x); k ← mapM validate (dump <$> l); mret (y :: k)).
  by rewrite Hx, IH.
Qed.

Lemma mapM_as_str (l : list string) : mapM as_str (PStr <$> l) = Ok l.
Proof. by apply mapM_dump. Qed.

Lemma validate_dump_finding (f : ResearchFinding) :
  validate_finding (dump_finding f) = Ok f.
Proof.
  destruct f as [i e s]. unfold validate_finding, dump_finding, required, optional.
  simpl. simplify_map_eq. simpl. unfold dump_strings, as_list.
  by rewrite mapM_as_str.
Qed.

Lemma mapM_validate_finding (l : list ResearchFinding) :
  mapM validate_finding (dump_finding <$> l) = Ok l.
Proof. apply mapM_dump, validate_dump_finding. Qed.

(** A dumped report validates back to the report it came from. *)
Lemma validate_dump (r : ResearchReport) : validate_report (model_dump r) = Ok r.
Proof.
  destruct r as [t s k srcs tgs m].
  unfold validate_report, model_dump, required, optional. simpl.
  simplify_map_eq. simpl. unfold dump_strings, as_list.
  by rewrite mapM_validate_finding, !mapM_as_str.
Qed.

Lemma model_dump_nonempty (r : ResearchReport) : model_dump r ≠ ∅.
Proof.
  intros E. assert (H : model_dump r !! "title" = Some (PStr (title r))).
  { unfold model_dump. by simplify_map_eq. }
  by rewrite E in H.
Qed.

(** Case analysis on how [review_node] builds its payload. *)
Ltac review_cases st :=
  unfold review_node in *;
  destruct (report st) as [?d |] eqn:?Hreport;
    [ destruct (decide (d = ∅)) as [-> | ?Hne];
      [ | destruct (validate_report d) as [?r | ?e] eqn:?Hvalid ] | ];
  simpl in *; try discriminate.

Lemma after_review_redo (st : DeepResearchState) :
  after_review (apply_update st (status_only "redo")) = Some orchestrate.
Proof. reflexivity. Qed.

Lemma after_review_approved (st : DeepResearchState) (u : update) :
  set_status u = Some "approved" →
  after_review (apply_update st u) = Some END.
Proof.
  intros Hu. unfold after_review, should_continue_review. simpl.
  by rewrite Hu.
Qed.

(** C6. Resumed with redo, the review step sets the status to redo and
    the sub-pipeline goes back to orchestrate, which is not clarify;
    resumed with approve, or with edit and edits that are a JSON object
    if any, it sets the status to approved and the sub-pipeline ends. *)
Theorem review_routing (st : DeepResearchState) (payload : HITLPayload)
    (r : gmap string pyval) :
  review_node st None = Some (Suspend payload) →
  (r !! "action" = Some (PStr "redo") →
     review_node st (Some (PDict r)) = Some (Return (status_only "redo"))
     ∧ should_continue_review (apply_update st (status_only "redo")) = "orchestrate"
     ∧ after_review (apply_update st (status_only "redo")) = Some orchestrate
     ∧ orchestrate ≠ clarify)
  ∧ (r !! "action" = Some (PStr "approve") →
     review_node st (Some (PDict r)) = Some (Return (status_only "approved"))
     ∧ after_review (apply_update st (status_only "approved")) = Some END)
  ∧ (r !! "action" = Some (PStr "edit") →
     (∀ v, r !! "edits" = Some v → (∃ e, v = PDict e) ∨ truthy v = false) →
     ∃ u, review_node st (Some (PDict r)) = Some (Return u)
          ∧ set_status u = Some "approved"
          ∧ status (apply_update st u) = Some "approved"
          ∧ after_review (apply_update st u) = Some END).
Proof.
  intros Hsusp. split; [| split].
  - intros Ha. split; [| done].
    review_cases st; by rewrite Ha.
  - intros Ha. split; [| done].
    review_cases st; by rewrite Ha.
  - intros Ha He.
    assert (Hedits : (∃ e, default (PDict ∅) (r !! "edits") = PDict e)
                     ∨ truthy (default (PDict ∅) (r !! "edits")) = false).
    { destruct (r !! "edits") as [v |]; [by apply He | left; by exists ∅]. }
    destruct Hedits as [[e Hedits] | Hedits];
      review_cases st; rewrite Ha; simpl; rewrite ?Hedits; simpl;
      try (by exists (status_only "approved")).
    destruct (bool_decide (e = ∅)); simpl.
    + by exists (status_only "approved").
    + by eexists.
Qed.

(** The state that [synthesize] leaves for the review. *)
Definition synthesized (r : ResearchReport) : DeepResearchState :=
  {| topic := Some "AI"; depth := Some "quick";
     clarified_topics := Some ["a"; "b"; "c"]; explorer_instructions := Some [];
     search_results := []; report := Some (model_dump r);
     status := Some "synthesized" |}.

Lemma review_routing_witness :
  review_node (synthesized sample_report) (Some (PDict {["action" := PStr "redo"]})) =
    Some (Return (status_only "redo"))
  ∧ after_review (apply_update (synthesized sample_report) (status_only "redo")) =
    Some orchestrate.
Proof.
  destruct (review_routing (synthesized sample_report)
              {| payload_type := review;
                 payload_title := "Review Research Report";
                 payload_message :=
                   "Please review the research report below. You can approve it, edit it, or request a redo.";
                 payload_report := Some sample_report;
                 payload_options := Some review_options |}
              {["action" := PStr "redo"]} eq_refl) as [H _].
  destruct (H eq_refl) as (H1 & _ & H3 & _). by split.
Defined.

(** The report with another title. *)
Definition with_title (x : string) (r : ResearchReport) : ResearchReport :=
  {| title := x; summary := summary r; key_findings := key_findings r;
     sources := sources r; tags := tags r; methodology := methodology r |}.

Lemma model_dump_with_title (x : string) (r : ResearchReport) :
  {["title" := PStr x]} ∪ model_dump r = model_dump (with_title x r).
Proof.
  unfold model_dump. simpl.
  rewrite <- insert_union_singleton_l. by rewrite insert_insert_eq.
Qed.

(** The edit path on a report that is there: the state's report becomes
    the edits laid over it. *)
Lemma review_edit (st : DeepResearchState) (d : gmap string pyval)
    (payload : HITLPayload) (r e : gmap string pyval) :
  report st = Some d → d ≠ ∅ →
  review_node st None = Some (Suspend payload) →
  r !! "action" = Some (PStr "edit") →
  r !! "edits" = Some (PDict e) →
  ∃ u, review_node st (Some (PDict r)) = Some (Return u)
       ∧ set_status u = Some "approved"
       ∧ report (apply_update st u) = Some (e ∪ d).
Proof.
  intros Hd Hne Hsusp Ha He. unfold review_node in *. rewrite Hd in *.
  rewrite decide_False in * by done.
  destruct (validate_report d) as [r0 | err]; simpl in *; [| discriminate].
  rewrite Ha, He. simpl.
  destruct (decide (e = ∅)) as [-> | Hne'].
  - rewrite bool_decide_eq_true_2 by done. simpl.
    exists (status_only "approved"). repeat split. simpl.
    by rewrite Hd, (left_id_L ∅ (∪)).
  - rewrite bool_decide_eq_false_2 by done. simpl. by eexists.
Qed.

(** C7. On the edit path the user's edits are laid over the report field
    by field: a field named in the edits takes the edited value, every
    other field keeps its own; with edits [{title: X}] the report is the
    original with title X, and a report dumped by synthesize stays the
    dump of the same report with that title. *)
Theorem review_edit_merge (st : DeepResearchState) (d : gmap string pyval)
    (payload : HITLPayload) (r e : gmap string pyval) :
  report st = Some d → d ≠ ∅ →
  review_node st None = Some (Suspend payload) →
  r !! "action" = Some (PStr "edit") →
  r !! "edits" = Some (PDict e) →
  ∃ u d',
    review_node st (Some (PDict r)) = Some (Return u)
    ∧ set_status u = Some "approved"
    ∧ report (apply_update st u) = Some d'
    ∧ (∀ k v, e !! k = Some v → d' !! k = Some v)
    ∧ (∀ k, e !! k = None → d' !! k = d !! k)
    ∧ (∀ x, e = {["title" := x]} →
         d' !! "title" = Some x ∧ ∀ k, k ≠ "title" → d' !! k = d !! k)
    ∧ (∀ x r0, e = {["title" := PStr x]} → d = model_dump r0 →
         d' = model_dump (with_title x r0)).
Proof.
  intros Hd Hne Hsusp Ha He.
  destruct (review_edit _ _ _ _ _ Hd Hne Hsusp Ha He) as (u & Hu & Hs & Hr).
  exists u, (e ∪ d). split; [done |]. split; [done |]. split; [done |].
  split; [| split; [| split]].
  - intros k v Hk. by apply lookup_union_Some_l.
  - intros k Hk. by rewrite lookup_union_r.
  - intros x ->. split.
    + apply lookup_union_Some_l, lookup_singleton_eq.
    + intros k Hk. rewrite lookup_union_r; [done |].
      by apply lookup_singleton_ne.
  - intros x r0 -> ->. apply model_dump_with_title.
Qed.

Lemma review_edit_merge_witness :
  ∃ u, review_node (synthesized sample_report)
         (Some (PDict {["action" := PStr "edit";
                        "edits" := PDict {["title" := PStr "X"]}]})) = Some (Return u)
       ∧ report (apply_update (synthesized sample_report) u) =
           Some (model_dump (with_title "X" sample_report)).
Proof.
  destruct (review_edit_merge (synthesized sample_report) (model_dump sample_report)
              {| payload_type := review;
                 payload_title := "Review Research Report";
                 payload_message :=
                   "Please review the research report below. You can approve it, edit it, or request a redo.";
                 payload_report := Some sample_report;
                 payload_options := Some review_options |}
              {["action" := PStr "edit"; "edits" := PDict {["title" := PStr "X"]}]}
              {["title" := PStr "X"]})
    as (u & d' & Hu & _ & Hr & _ & _ & _ & Hdump);
    [reflexivity | apply model_dump_nonempty | reflexivity
    | by vm_compute | by vm_compute |].
  exists u. split; [exact Hu |].
  by rewrite Hr, (Hdump "X" sample_report eq_refl eq_refl).
Defined.

(** *** Explorers: a failed search *)

Section Explorer.

Variable search : string → exc pyval.
Variable validate_result : pyval → pyval → pyval → pyval → exc SearchResult.

(** The entry that stands for a failed search. *)
Definition search_error (query : string) (e : exn) : SearchResult :=
  {| result_url := ""; result_title := query;
     result_content := "Search error: " +:+ exn_msg e; result_score := 0 |}.

(** What one explorer adds to [search_results]. *)
Definition explorer_results (ex : ExplorerState) : list SearchResult :=
  match explorer_try search validate_result (ex_query ex) with
  | Ok results => results
  | Raise e => [search_error (ex_query ex) e]
  end.

Lemma explorer_node_returns (ex : ExplorerState) :
  explorer_node search validate_result ex =
    Return {| set_clarified_topics := None; set_explorer_instructions := None;
              add_search_results := explorer_results ex;
              set_report := None; set_status := None |}.
Proof.
  unfold explorer_node, explorer_results.
  by destruct (explorer_try search validate_result (ex_query ex)).
Qed.

(** The fan-out never fails, and every explorer's entries reach the
    state. *)
Lemma explore_total (st : DeepResearchState) (explorers : list ExplorerState) :
  ∃ st', explore search validate_result st explorers = Ok st'
         ∧ search_results st' =
             search_results st ++ concat (explorer_results <$> explorers).
Proof.
  revert st. induction explorers as [| ex explorers IH]; intros st.
  - exists st. split; [done |]. simpl. by rewrite app_nil_r.
  - cbn [explore]. rewrite explorer_node_returns.
    destruct (IH (apply_update st
      {| set_clarified_topics := None; set_explorer_instructions := None;
         add_search_results := explorer_results ex;
         set_report := None; set_status := None |})) as (st' & Hst' & Hres).
    exists st'. split; [done |]. rewrite Hres. simpl. by rewrite app_assoc.
Qed.

(** C8. An explorer whose search raises returns normally, with the one
    entry that reports the error; the fan-out it belongs to goes through
    and that entry is among its results. *)
Theorem explorer_failure_caught (ex : ExplorerState) (e : exn) :
  search (ex_query ex) = Raise e →
  explorer_node search validate_result ex =
    Return {| set_clarified_topics := None; set_explorer_instructions := None;
              add_search_results := [search_error (ex_query ex) e];
              set_report := None; set_status := None |}
  ∧ length (explorer_results ex) = 1
  ∧ ∀ st before after,
      ∃ st', explore search validate_result st (before ++ ex :: after) = Ok st'
             ∧ search_error (ex_query ex) e ∈ search_results st'.
Proof.
  intros Hs.
  assert (Hres : explorer_results ex = [search_error (ex_query ex) e]).
  { unfold explorer_results, explorer_try. by rewrite Hs. }
  split; [by rewrite explorer_node_returns, Hres |].
  split; [by rewrite Hres |].
  intros st before after.
  destruct (explore_total st (before ++ ex :: after)) as (st' & Hst' & Hall).
  exists st'. split; [done |].
  rewrite Hall, fmap_app, fmap_cons, concat_app, Hres. simpl.
  rewrite !elem_of_app. right. right. by left.
Qed.

End Explorer.

Lemma explorer_failure_caught_witness :
  explorer_node (λ _, Raise (Exn "ConnectionError" "network unreachable"))
                (λ _ _ _ _, Raise ValidationError)
                {| ex_query := "AI safety research 2025";
                   ex_search_focus := "Recent developments";
                   ex_context := ""; ex_search_results := [] |} =
    Return {| set_clarified_topics := None; set_explorer_instructions := None;
              add_search_results :=
                [{| result_url := ""; result_title := "AI safety research 2025";
                    result_content := "Search error: network unreachable";
                    result_score := 0 |}];
              set_report := None; set_status := None |}.
Proof.
  exact (proj1 (explorer_failure_caught
                  (λ _, Raise (Exn "ConnectionError" "network unreachable"))
                  (λ _ _ _ _, Raise ValidationError)
                  {| ex_query := "AI safety research 2025";
                     ex_search_focus := "Recent developments";
                     ex_context := ""; ex_search_results := [] |}
                  (Exn "ConnectionError" "network unreachable") eq_refl)).
Defined.

End ResearchGraphSpec.

(** ** The payloads of the three suspension points *)

Module HITLSpec.
Import Schemas LangGraph.

(** What the consumers of a payload check. *)
Definition payload_valid (p : HITLPayload) : Prop :=
  match payload_type p with
  | checkbox | select => is_Some (payload_options p)
  | review | confirm => is_Some (payload_report p)
  | yes_no | text => True
  end.

Lemma clarify_payload_valid (suggest : string → exc (list string))
    (st : ResearchGraph.DeepResearchState) (p : HITLPayload) :
  ResearchGraph.clarify_node suggest st None = Suspend p →
  payload_type p = checkbox ∧ payload_valid p.
Proof.
  unfold ResearchGraph.clarify_node.
  destruct (suggest _) as [subtopics | e]; simpl; [| discriminate].
  intros [= <-]. split; [done |]. by eexists.
Qed.

(** Whatever the state, a review payload without a report is only built
    when the state has no report to review. *)
Lemma review_payload_report (st : ResearchGraph.DeepResearchState) (p : HITLPayload) :
  ResearchGraph.review_node st None = Some (Suspend p) →
  payload_type p = review
  ∧ (payload_report p = None →
     ResearchGraph.report st = None ∨ ResearchGraph.report st = Some ∅).
Proof.
  unfold ResearchGraph.review_node.
  destruct (ResearchGraph.report st) as [d |]; [destruct (decide (d = ∅)) as [-> | Hne] |].
  - intros [= <-]. split; [done |]. by right.
  - destruct (validate_report d) as [r | e]; simpl; [| discriminate].
    intros [= <-]. split; [done |]. discriminate.
  - intros [= <-]. split; [done |]. by left.
Qed.

(** The review that follows synthesize suspends with the synthesized
    report in its payload. *)
Lemma review_after_synthesize (synthesize : string → exc ResearchReport)
    (st : ResearchGraph.DeepResearchState) (u : ResearchGraph.update) :
  ResearchGraph.synthesize_node synthesize st = Return u →
  ∃ p r,
    ResearchGraph.review_node (ResearchGraph.apply_update st u) None = Some (Suspend p)
    ∧ ResearchGraph.set_report u = Some (model_dump r)
    ∧ payload_type p = review
    ∧ payload_report p = Some r.
Proof.
  unfold ResearchGraph.synthesize_node.
  destruct (synthesize _) as [r | e]; simpl; [| discriminate].
  intros [= <-]. unfold ResearchGraph.review_node. simpl.
  rewrite decide_False by apply ResearchGraphSpec.model_dump_nonempty.
  rewrite ResearchGraphSpec.validate_dump. simpl. by eexists _, r.
Qed.

Lemma save_confirm_payload (st : Nodes.state) (p : HITLPayload) :
  Nodes.save_confirm_node st None = Suspend p →
  payload_type p = confirm
  ∧ is_Some (payload_report p)
  ∧ Nodes.research_reports st ≠ [].
Proof.
  unfold Nodes.save_confirm_node.
  destruct (Nodes.research_reports st) as [| report reports] eqn:E; [discriminate |].
  destruct (Nodes.selected_report st) as [d | e]; simpl; [| discriminate].
  destruct (validate_report d) as [r | e]; simpl; [| discriminate].
  intros [= <-]. split; [done |]. split; [by eexists | done].
Qed.

Lemma save_confirm_no_reports (st : Nodes.state) (resume : option pyval) :
  Nodes.research_reports st = [] →
  Nodes.save_confirm_node st resume =
    Return (Nodes.save_reply (Nodes.messages st)
              "No research reports available to save. Run a deep research first.").
Proof. intros E. unfold Nodes.save_confirm_node. by rewrite E. Qed.

Lemma after_review_cases (st : ResearchGraph.DeepResearchState) (next : ResearchGraph.node) :
  ResearchGraph.after_review st = Some next →
  next = ResearchGraph.orchestrate ∨ next = ResearchGraph.END.
Proof.
  unfold ResearchGraph.after_review, ResearchGraph.should_continue_review.
  case_decide; intros [= <-]; auto.
Qed.

(** Along a run, the review step is only entered with the dump of a
    synthesized report in the state. *)
Lemma reachable_review (topic depth : string) (st : ResearchGraph.DeepResearchState) :
  ResearchGraph.reachable topic depth (ResearchGraph.review_, st) →
  ∃ r, ResearchGraph.report st = Some (model_dump r).
Proof.
  unfold ResearchGraph.reachable. intros Hrun.
  apply rtc_inv_r in Hrun as [[=] | ([n st0] & _ & Hmove)].
  inversion Hmove as [ | | | | | synthesize st1 u Hu | st1 v u next Hu Hnext ]; subst.
  - unfold ResearchGraph.synthesize_node in Hu.
    destruct (synthesize _) as [r | e]; simpl in Hu; [| discriminate].
    injection Hu as <-. by exists r.
  - by destruct (after_review_cases _ _ Hnext).
Qed.

(** A run that gets to the review: the model suggests six topics, the
    user keeps two, the model gives two instructions, one search fails
    and the other returns text, and the model writes the report. *)
Example run_reaches_review :
  ∃ st, ResearchGraph.reachable "AI safety" "quick" (ResearchGraph.review_, st)
        ∧ ResearchGraph.report st = Some (model_dump ResearchGraphSpec.sample_report)
        ∧ length (ResearchGraph.search_results st) = 2%nat.
Proof.
  eexists. split; [| split].
  - unfold ResearchGraph.reachable.
    eapply rtc_l; [apply ResearchGraph.moves_start |].
    eapply rtc_l.
    { apply (ResearchGraph.moves_clarify (λ _, Ok ResearchGraphSpec.six_topics) _
               (PList [PStr "topic_0"; PStr "topic_2"])). reflexivity. }
    eapply rtc_l.
    { apply (ResearchGraph.moves_orchestrate
               (λ _, Ok [ResearchGraphSpec.instruction "q1";
                         ResearchGraphSpec.instruction "q2";
                         ResearchGraphSpec.instruction "q3"])); [reflexivity | done]. }
    eapply rtc_l.
    { apply (ResearchGraph.moves_explorer
               (λ q, if decide (q = "q1") then Raise (Exn "ConnectionError" "timed out")
                     else Ok (PStr "some text"))
               (λ _ _ _ _, Raise ValidationError)). reflexivity. }
    eapply rtc_l.
    { apply (ResearchGraph.moves_synthesize (λ _, Ok ResearchGraphSpec.sample_report)).
      reflexivity. }
    apply rtc_refl.
  - reflexivity.
  - reflexivity.
Qed.

Lemma reachable_review_payload (topic depth : string) (st : ResearchGraph.DeepResearchState) :
  ResearchGraph.reachable topic depth (ResearchGraph.review_, st) →
  ∃ p r, ResearchGraph.review_node st None = Some (Suspend p)
         ∧ payload_type p = review ∧ payload_report p = Some r.
Proof.
  intros Hrun. destruct (reachable_review _ _ _ Hrun) as [r Hr].
  unfold ResearchGraph.review_node. rewrite Hr.
  rewrite decide_False by apply ResearchGraphSpec.model_dump_nonempty.
  rewrite ResearchGraphSpec.validate_dump. simpl. by eexists _, r.
Qed.

(** C9. The three payloads the core builds are valid: the checkbox
    payload of clarify carries its options, the review payload built
    after synthesize, which is the only way a run comes to the review,
    carries the synthesized report, and the confirm
    payload of the save-confirmation step, which suspends only when the
    conversation has a report, carries the report to save. *)
Theorem hitl_payloads_valid :
  (∀ suggest st p,
     ResearchGraph.clarify_node suggest st None = Suspend p →
     payload_type p = checkbox ∧ payload_valid p)
  ∧ (∀ synthesize st u,
     ResearchGraph.synthesize_node synthesize st = Return u →
     ∃ p, ResearchGraph.review_node (ResearchGraph.apply_update st u) None
            = Some (Suspend p)
          ∧ payload_type p = review ∧ payload_valid p)
  ∧ (∀ topic depth st,
     ResearchGraph.reachable topic depth (ResearchGraph.review_, st) →
     ∃ p, ResearchGraph.review_node st None = Some (Suspend p)
          ∧ payload_type p = review ∧ payload_valid p)
  ∧ (∀ st p,
     Nodes.save_confirm_node st None = Suspend p →
     payload_type p = confirm ∧ payload_valid p ∧ Nodes.research_reports st ≠ [])
  ∧ (∀ st resume,
     Nodes.research_reports st = [] →
     ∃ u, Nodes.save_confirm_node st resume = Return u).
Proof.
  split; [apply clarify_payload_valid |]. split; [| split; [| split]].
  - intros synthesize st u Hu.
    destruct (review_after_synthesize _ _ _ Hu) as (p & r & Hp & _ & Ht & Hr).
    exists p. split; [done |]. split; [done |].
    unfold payload_valid. rewrite Ht, Hr. by eexists.
  - intros topic depth st Hrun.
    destruct (reachable_review_payload _ _ _ Hrun) as (p & r & Hp & Ht & Hr).
    exists p. split; [done |]. split; [done |].
    unfold payload_valid. rewrite Ht, Hr. by eexists.
  - intros st p Hp.
    destruct (save_confirm_payload _ _ Hp) as (Ht & Hr & Hne).
    split; [done |]. split; [| done].
    unfold payload_valid. by rewrite Ht.
  - intros st resume E. eexists. by apply save_confirm_no_reports.
Qed.

(** The three suspensions on a run: clarify on a topic, review of the
    synthesized report, and the confirmation of saving the last of three
    reports. *)
Lemma hitl_payloads_valid_witness :
  (∃ p, ResearchGraph.clarify_node (λ _, Ok ResearchGraphSpec.six_topics)
          (ResearchGraphSpec.research_state [] "quick") None = Suspend p
        ∧ payload_valid p)
  ∧ (∃ p, Nodes.save_confirm_node (NodesSpec.three_reports 0) None = Suspend p
          ∧ payload_valid p).
Proof.
  destruct hitl_payloads_valid as (Hclarify & _ & _ & Hsave & _).
  split.
  - eexists. split; [reflexivity |].
    apply (Hclarify (λ _, Ok ResearchGraphSpec.six_topics)
             (ResearchGraphSpec.research_state [] "quick")). reflexivity.
  - eexists. split; [reflexivity |].
    apply (Hsave (NodesSpec.three_reports 0)). reflexivity.
Defined.

End HITLSpec.

(** ** What a research run keeps *)

Module ResearchRunSpec.
Import Schemas LangGraph ResearchGraph.

#[local] Open Scope nat_scope.

(** The dict of a review never touches the topics, the instructions or
    the search results, and its status is approved or redo. *)
Lemma review_update_shape (st : DeepResearchState) (v : pyval) (u : update) :
  review_node st (Some v) = Some (Return u) →
  set_clarified_topics u = None
  ∧ set_explorer_instructions u = None
  ∧ add_search_results u = []
  ∧ (set_status u = Some "approved" ∨ set_status u = Some "redo").
Proof.
  unfold review_node. intros Hu.
  repeat (match type of Hu with
          | context [match ?x with _ => _ end] => destruct x
          | context [if ?x then _ else _] => destruct x
          end; simpl in Hu; try discriminate);
    injection Hu as <-; simpl; auto.
Qed.

Lemma explore_appends (search : string → exc pyval)
    (validate_result : pyval → pyval → pyval → pyval → exc SearchResult)
    (explorers : list ExplorerState) (st st' : DeepResearchState) :
  explore search validate_result st explorers = Ok st' →
  topic st' = topic st ∧ status st' = status st ∧ report st' = report st
  ∧ search_results st `prefix_of` search_results st'.
Proof.
  revert st. induction explorers as [| ex explorers IH]; intros st; simpl.
  - by intros [= <-].
  - intros H. destruct (IH _ H) as (-> & -> & -> & Hp). simpl.
    repeat split. etrans; [| exact Hp]. simpl. by apply prefix_app_r.
Qed.

(** One move keeps the topic and the depth, and only adds search results. *)
Lemma moves_keeps (c c' : node * DeepResearchState) :
  moves c c' →
  topic c'.2 = topic c.2 ∧ depth c'.2 = depth c.2
  ∧ search_results c.2 `prefix_of` search_results c'.2.
Proof.
  intros Hmove. destruct Hmove as
    [ st | suggest st v u Hu | instruct st u Hu Hsend | instruct st u Hu Hsend
    | search validate_result st st' Hexplore | synthesize st u Hu
    | st v u next Hu Hnext ]; simpl.
  - done.
  - unfold clarify_node in Hu.
    destruct (suggest _); simpl in Hu; [| discriminate].
    injection Hu as <-. simpl. by rewrite app_nil_r.
  - apply ResearchGraphSpec.orchestrate_node_returns in Hu as (result & _ & ->).
    simpl. by rewrite app_nil_r.
  - apply ResearchGraphSpec.orchestrate_node_returns in Hu as (result & _ & ->).
    simpl. by rewrite app_nil_r.
  - destruct (ResearchGraphSpec.explore_keeps _ _ _ _ _ Hexplore) as (_ & Hd & _).
    destruct (explore_appends _ _ _ _ _ Hexplore) as (Ht & _ & _ & Hp). done.
  - unfold synthesize_node in Hu.
    destruct (synthesize _); simpl in Hu; [| discriminate].
    injection Hu as <-. simpl. by rewrite app_nil_r.
  - destruct (review_update_shape _ _ _ Hu) as (_ & _ & -> & _).
    simpl. by rewrite app_nil_r.
Qed.

(** X1. Along a research run the topic and the depth never change, and
    the search results only grow: what an earlier round of explorers
    found is still there, in the same order, after a redo. *)
Theorem run_keeps_results (c c' : node * DeepResearchState) :
  rtc moves c c' →
  topic c'.2 = topic c.2 ∧ depth c'.2 = depth c.2
  ∧ search_results c.2 `prefix_of` search_results c'.2.
Proof.
  induction 1 as [c | c c1 c' Hmove _ IH]; [done |].
  destruct (moves_keeps _ _ Hmove) as (Ht & Hd & Hp).
  destruct IH as (Ht' & Hd' & Hp').
  split; [congruence |]. split; [congruence |]. by etrans.
Qed.

(** A state in the middle of a run: one result from an earlier round,
    two topics, no report yet. *)
Definition second_round : DeepResearchState :=
  {| topic := Some "AI safety"; depth := Some "quick";
     clarified_topics := Some ["alignment"; "evaluation"];
     explorer_instructions := None;
     search_results :=
       [{| result_url := "u0"; result_title := "old"; result_content := "found before";
           result_score := 0 |}];
     report := None; status := Some "redo" |}.

Definition second_round_done : DeepResearchState :=
  {| topic := Some "AI safety"; depth := Some "quick";
     clarified_topics := Some ["alignment"; "evaluation"];
     explorer_instructions :=
       Some [ResearchGraphSpec.instruction "q1"; ResearchGraphSpec.instruction "q2"];
     search_results :=
       [{| result_url := "u0"; result_title := "old"; result_content := "found before";
           result_score := 0 |};
        {| result_url := ""; result_title := "q1"; result_content := "text";
           result_score := 0 |};
        {| result_url := ""; result_title := "q2"; result_content := "text";
           result_score := 0 |}];
     report := None; status := Some "orchestrated" |}.

Lemma second_round_run :
  rtc moves (orchestrate, second_round) (synthesize_, second_round_done).
Proof.
  eapply rtc_l.
  { apply (moves_orchestrate
             (λ _, Ok [ResearchGraphSpec.instruction "q1";
                       ResearchGraphSpec.instruction "q2";
                       ResearchGraphSpec.instruction "q3"])); [reflexivity | done]. }
  eapply rtc_l; [| apply rtc_refl].
  apply (moves_explorer (λ _, Ok (PStr "text")) (λ _ _ _ _, Raise ValidationError)).
  reflexivity.
Qed.

Lemma run_keeps_results_witness :
  search_results second_round `prefix_of` search_results second_round_done.
Proof. exact (proj2 (proj2 (run_keeps_results _ _ second_round_run))). Defined.

(** X2. Once a run has left clarify it never comes back to it, and the
    clarified topics stay what the user selected: a redo starts again
    from orchestrate with the same topics. *)
Theorem run_never_reclarifies (c c' : node * DeepResearchState) :
  rtc moves c c' →
  c.1 ≠ START → c.1 ≠ clarify →
  c'.1 ≠ START ∧ c'.1 ≠ clarify ∧ clarified_topics c'.2 = clarified_topics c.2.
Proof.
  induction 1 as [c | c c1 c' Hmove _ IH]; intros Hs Hc; [done |].
  assert (H1 : c1.1 ≠ START ∧ c1.1 ≠ clarify
               ∧ clarified_topics c1.2 = clarified_topics c.2).
  { destruct Hmove as
      [ st | suggest st v u Hu | instruct st u Hu Hsend | instruct st u Hu Hsend
      | search validate_result st st' Hexplore | synthesize st u Hu
      | st v u next Hu Hnext ]; simpl in *; try done.
    - apply ResearchGraphSpec.orchestrate_node_returns in Hu as (result & _ & ->).
      done.
    - apply ResearchGraphSpec.orchestrate_node_returns in Hu as (result & _ & ->).
      done.
    - by destruct (ResearchGraphSpec.explore_keeps _ _ _ _ _ Hexplore) as (-> & _ & _).
    - unfold synthesize_node in Hu.
      destruct (synthesize _); simpl in Hu; [| discriminate].
      by injection Hu as <-.
    - destruct (review_update_shape _ _ _ Hu) as (-> & _ & _ & _).
      by destruct (HITLSpec.after_review_cases _ _ Hnext) as [-> | ->]. }
  destruct H1 as (Hs1 & Hc1 & Ht1).
  destruct (IH Hs1 Hc1) as (Hs' & Hc' & Ht'). split; [done |]. split; [done |].
  congruence.
Qed.

Lemma run_never_reclarifies_witness :
  clarified_topics second_round_done = clarified_topics second_round.
Proof.
  refine (proj2 (proj2 (run_never_reclarifies _ _ second_round_run _ _))); done.
Defined.

Lemma depth_width_le (depth : string) : depth_width depth ≤ 8.
Proof.
  unfold depth_width, DEPTH_MAP.
  destruct (decide (depth = "quick")) as [-> | H1]; [vm_compute; lia |].
  destruct (decide (depth = "standard")) as [-> | H2]; [vm_compute; lia |].
  destruct (decide (depth = "deep")) as [-> | H3]; [vm_compute; lia |].
  rewrite !lookup_insert_ne by done. rewrite lookup_singleton_ne by done.
  simpl. lia.
Qed.

(** X3. In every state of a research run the fan-out sends at most 8
    explorers, at most one per clarified topic, and at most the width of
    the depth. *)
Theorem run_fanout_width (topic depth : string) (c : node * DeepResearchState) :
  reachable topic depth c →
  length (route_to_explorers c.2) ≤ 8
  ∧ length (route_to_explorers c.2) ≤ length (default [] (clarified_topics c.2))
  ∧ length (route_to_explorers c.2)
      ≤ depth_width (default "standard" (ResearchGraph.depth c.2)).
Proof.
  intros Hrun.
  destruct (ResearchGraphSpec.reachable_within_bound _ _ _ Hrun) as [Hb _].
  unfold route_to_explorers. rewrite length_fmap.
  pose proof (depth_width_le (default "standard" (ResearchGraph.depth c.2))) as Hw.
  unfold ResearchGraphSpec.explorer_bound in Hb.
  destruct (explorer_instructions c.2) as [instructions |]; simpl; lia.
Qed.

(** A run at depth deep with ten clarified topics in which the model
    answers with twelve instructions: eight explorers are sent. *)
Definition ten_topics : list string :=
  ["t0"; "t1"; "t2"; "t3"; "t4"; "t5"; "t6"; "t7"; "t8"; "t9"].

Definition twelve_instructions : list ExplorerInstruction :=
  ResearchGraphSpec.instruction <$>
    ["q0"; "q1"; "q2"; "q3"; "q4"; "q5"; "q6"; "q7"; "q8"; "q9"; "q10"; "q11"].

Lemma wide_run :
  ∃ st, reachable "AI" "deep" (explorer, st)
        ∧ length (route_to_explorers st) = 8.
Proof.
  eexists. split.
  - unfold reachable.
    eapply rtc_l; [apply moves_start |].
    eapply rtc_l.
    { apply (moves_clarify (λ _, Ok ten_topics) _ (PList [])). reflexivity. }
    eapply rtc_l; [| apply rtc_refl].
    apply (moves_orchestrate (λ _, Ok twelve_instructions)); [reflexivity | done].
  - reflexivity.
Qed.

Lemma run_fanout_width_witness :
  ∃ st, reachable "AI" "deep" (explorer, st) ∧ length (route_to_explorers st) ≤ 8.
Proof.
  destruct wide_run as (st & Hrun & _). exists st. split; [exact Hrun |].
  exact (proj1 (run_fanout_width _ _ _ Hrun)).
Defined.

Lemma union_nonempty (e d : gmap string pyval) : d ≠ ∅ → e ∪ d ≠ ∅.
Proof.
  intros Hd E. apply map_choose in Hd as (k & v & Hk).
  assert (H : is_Some ((e ∪ d) !! k)).
  { rewrite lookup_union. destruct (e !! k); rewrite Hk; simpl; by eexists. }
  rewrite E, lookup_empty in H. by destruct H.
Qed.

(** Case analysis on the matches and tests of a hypothesis, innermost
    scrutinee first. *)
Ltac destruct_matches H :=
  repeat (match type of H with
          | context [match ?x with _ => _ end] =>
              lazymatch x with
              | context [match _ with _ => _ end] => fail
              | _ => destruct x eqn:?
              end
          end; simpl in H; try discriminate).

Lemma review_report_nonempty (st : DeepResearchState) (v : pyval) (u : update)
    (d' : gmap string pyval) :
  review_node st (Some v) = Some (Return u) →
  set_report u = Some d' → d' ≠ ∅.
Proof.
  unfold review_node, dict_update. intros Hu Hd'.
  destruct_matches Hu; injection Hu as <-; simpl in Hd';
    first [discriminate | injection Hd' as <-; by apply union_nonempty].
Qed.

(** X4. A research run ends in one of two ways: after a review, with
    status approved and a report that is not empty; or straight after
    orchestrate, when no explorer was sent, with status orchestrated. *)
Theorem run_end (topic depth : string) (st : DeepResearchState) :
  reachable topic depth (END, st) →
  (status st = Some "approved" ∧ ∃ d, report st = Some d ∧ d ≠ ∅)
  ∨ (status st = Some "orchestrated" ∧ route_to_explorers st = []).
Proof.
  unfold reachable. intros Hrun.
  apply rtc_inv_r in Hrun as [[=] | ([n st0] & Hrun & Hmove)].
  inversion Hmove as
    [ | | | instruct st1 u Hu Hsend | | | st1 v u next Hu Hnext ]; subst.
  - right. split; [| done].
    apply ResearchGraphSpec.orchestrate_node_returns in Hu as (result & _ & ->).
    done.
  - left. destruct (review_update_shape _ _ _ Hu) as (_ & _ & _ & Hstatus).
    split.
    + unfold after_review, should_continue_review in Hnext.
      destruct Hstatus as [Hs | Hs]; simpl in *; rewrite Hs in *; [done |].
      rewrite decide_True in Hnext by done. discriminate.
    + destruct (HITLSpec.reachable_review _ _ _ Hrun) as [r Hr]. simpl.
      destruct (set_report u) as [d' |] eqn:Hd'.
      * exists d'. split; [done |]. by eapply review_report_nonempty.
      * exists (model_dump r). split; [done |].
        apply ResearchGraphSpec.model_dump_nonempty.
Qed.

Lemma run_end_witness :
  ∃ st, reachable "AI safety" "quick" (END, st) ∧ status st = Some "approved".
Proof.
  destruct ResearchGraphSpec.short_run as (st & Hrun & _ & _ & Hi & Hs).
  exists st. split; [exact Hrun |].
  destruct (run_end _ _ _ Hrun) as [[H _] | [H _]]; [exact H | exact Hs].
Defined.

End ResearchRunSpec.

(** ** Edge behaviour of the research nodes *)

Module ResearchNodesSpec.
Import Schemas LangGraph ResearchGraph.

#[local] Open Scope nat_scope.

(** *** Explorer: what a search that returns contributes *)

Lemma mapM_Ok {A B : Type} (f : A → exc B) (l : list A) (k : list B) :
  Forall2 (λ x y, f x = Ok y) l k → mapM f l = Ok k.
Proof.
  induction 1 as [| x y l k Hx _ IH]; [done |].
  change (mapM f (x :: l)) with (y ← f x; k ← mapM f l; mret (y :: k)).
  by rewrite Hx, IH.
Qed.

Lemma mapM_Raise {A B : Type} (f : A → exc B) (l : list A) (x : A) (e : exn) :
  x ∈ l → f x = Raise e → ∃ e', mapM f l = Raise e'.
Proof.
  intros Hin Hx. induction l as [| y l IH]; [by apply elem_of_nil in Hin |].
  change (mapM f (y :: l)) with (z ← f y; k ← mapM f l; mret (z :: k)).
  apply elem_of_cons in Hin as [<- | Hin].
  - rewrite Hx. by eexists.
  - destruct (f y) as [z | e1]; [| by eexists]. simpl.
    destruct (IH Hin) as [e' ->]. by eexists.
Qed.

Section Explorer.

Variable search : string → exc pyval.
Variable validate_result : pyval → pyval → pyval → pyval → exc SearchResult.

(** One hit of the search as the loop reads it. *)
Definition read_hit (query : string) (r : pyval) : exc SearchResult :=
  match r with
  | PDict d =>
      validate_result (default (PStr "") (d !! "url"))
                      (default (PStr query) (d !! "title"))
                      (default (PStr "") (d !! "content"))
                      (default (PFloat 0) (d !! "score"))
  | v => Raise (AttributeError v)
  end.

Definition adds (results : list SearchResult) : step update :=
  Return {| set_clarified_topics := None; set_explorer_instructions := None;
            add_search_results := results; set_report := None; set_status := None |}.

Lemma explorer_try_list (query : string) (hits : list pyval) :
  search query = Ok (PList hits) →
  explorer_try search validate_result query = mapM (read_hit query) hits.
Proof. intros Hs. unfold explorer_try. by rewrite Hs. Qed.

(** X5. What an explorer adds when its search returns.  A list of hits
    that all validate gives one entry per hit, in order.  A list with
    one hit that does not (a hit that is no dict, a field of the wrong
    type) gives a single error entry: the hits that did validate are
    dropped with it.  A string gives one entry with the string as
    content and the query as title.  Any other value gives nothing. *)
Theorem explorer_outcomes (ex : ExplorerState) :
  (∀ hits results,
     search (ex_query ex) = Ok (PList hits) →
     Forall2 (λ hit r, read_hit (ex_query ex) hit = Ok r) hits results →
     explorer_node search validate_result ex = adds results
     ∧ length results = length hits)
  ∧ (∀ hits hit e,
     search (ex_query ex) = Ok (PList hits) →
     hit ∈ hits → read_hit (ex_query ex) hit = Raise e →
     ∃ e', explorer_node search validate_result ex =
             adds [ResearchGraphSpec.search_error (ex_query ex) e'])
  ∧ (∀ s,
     search (ex_query ex) = Ok (PStr s) →
     explorer_node search validate_result ex =
       adds [{| result_url := ""; result_title := ex_query ex;
                result_content := s; result_score := 0 |}])
  ∧ (∀ v,
     search (ex_query ex) = Ok v →
     (∀ hits, v ≠ PList hits) → (∀ s, v ≠ PStr s) →
     explorer_node search validate_result ex = adds []).
Proof.
  split; [| split; [| split]].
  - intros hits results Hs Hall. split; [| symmetry; by eapply Forall2_length].
    unfold explorer_node.
    by rewrite (explorer_try_list _ _ Hs), (mapM_Ok _ _ _ Hall).
  - intros hits hit e Hs Hin He.
    destruct (mapM_Raise _ _ _ _ Hin He) as [e' He'].
    exists e'. unfold explorer_node.
    by rewrite (explorer_try_list _ _ Hs), He'.
  - intros s Hs. unfold explorer_node, explorer_try. by rewrite Hs.
  - intros v Hs Hl Hstr. unfold explorer_node, explorer_try. rewrite Hs. simpl.
    destruct v as [| | | | s | hits |]; try done.
    + by destruct (Hstr s).
    + by destruct (Hl hits).
Qed.

End Explorer.

(** A search that returns two good hits and a number. *)
Lemma explorer_outcomes_witness :
  ∃ e,
    explorer_node
      (λ _, Ok (PList [PDict {["url" := PStr "u1"]}; PInt 7; PDict {["url" := PStr "u2"]}]))
      (λ url title content _,
         match url, title, content with
         | PStr u, PStr t, PStr c =>
             Ok {| result_url := u; result_title := t; result_content := c;
                   result_score := 0 |}
         | _, _, _ => Raise ValidationError
         end)
      {| ex_query := "q"; ex_search_focus := ""; ex_context := "";
         ex_search_results := [] |}
    = adds [ResearchGraphSpec.search_error "q" e].
Proof.
  pose proof (explorer_outcomes
    (λ _, Ok (PList [PDict {["url" := PStr "u1"]}; PInt 7; PDict {["url" := PStr "u2"]}]))
    (λ url title content _,
       match url, title, content with
       | PStr u, PStr t, PStr c =>
           Ok {| result_url := u; result_title := t; result_content := c;
                 result_score := 0 |}
       | _, _, _ => Raise ValidationError
       end)
    {| ex_query := "q"; ex_search_focus := ""; ex_context := "";
       ex_search_results := [] |}) as (_ & H & _).
  apply (H _ (PInt 7) (AttributeError (PInt 7)) eq_refl); [| reflexivity].
  apply list_elem_of_In. simpl. auto.
Defined.

(** *** Review: everything but redo approves *)

(** [user_response.get("action", "approve")], or ["approve"] for a
    value that is no dict. *)
Definition action_of (v : pyval) : pyval :=
  match v with
  | PDict r => default (PStr "approve") (r !! "action")
  | _ => PStr "approve"
  end.

Lemma action_redo (v : pyval) :
  action_of v = PStr "redo" ↔ ∃ r, v = PDict r ∧ r !! "action" = Some (PStr "redo").
Proof.
  split.
  - destruct v as [| | | | | | r]; try discriminate. simpl.
    destruct (r !! "action") as [a |] eqn:Ha; simpl; [| discriminate].
    intros ->. by exists r.
  - intros (r & -> & Ha). simpl. by rewrite Ha.
Qed.

Lemma review_redo (st : DeepResearchState) (v : pyval) (u : update) :
  review_node st (Some v) = Some (Return u) →
  action_of v = PStr "redo" → u = ResearchGraphSpec.status_only "redo".
Proof.
  intros Hu Ha. apply action_redo in Ha as (r & -> & Ha).
  unfold review_node in Hu. rewrite Ha in Hu. simpl in Hu.
  ResearchRunSpec.destruct_matches Hu; by injection Hu as <-.
Qed.

Lemma review_not_redo (st : DeepResearchState) (v : pyval) (u : update) :
  review_node st (Some v) = Some (Return u) →
  action_of v ≠ PStr "redo" → set_status u = Some "approved".
Proof.
  intros Hu Ha.
  assert (Hr : eq_str (action_of v) "redo" = false).
  { apply not_true_is_false. by rewrite ResearchGraphSpec.eq_str_spec. }
  unfold review_node in Hu. fold (action_of v) in Hu. rewrite Hr in Hu.
  ResearchRunSpec.destruct_matches Hu; by injection Hu as <-.
Qed.

Lemma review_sets_report (st : DeepResearchState) (v : pyval) (u : update) :
  review_node st (Some v) = Some (Return u) →
  is_Some (set_report u) →
  action_of v = PStr "edit" ∧ ∃ d, report st = Some d ∧ d ≠ ∅.
Proof.
  intros Hu [d' Hd'].
  destruct (eq_str (action_of v) "edit") eqn:He.
  - apply ResearchGraphSpec.eq_str_spec in He. split; [done |].
    unfold review_node in Hu.
    destruct (report st) as [d |]; [destruct (decide (d = ∅)) as [-> | Hne] |].
    + ResearchRunSpec.destruct_matches Hu; injection Hu as <-; discriminate.
    + by exists d.
    + ResearchRunSpec.destruct_matches Hu; injection Hu as <-; discriminate.
  - unfold review_node in Hu. fold (action_of v) in Hu.
    ResearchRunSpec.destruct_matches Hu; injection Hu as <-; try discriminate.
    all: exfalso;
      repeat match goal with
             | H : default _ _ = _ |- _ => revert H
             | H : _ !! _ = _ |- _ => revert H
             end; simpl in He; intros; simplify_eq/=; congruence.
Qed.

Lemma action_edit (v : pyval) :
  action_of v = PStr "edit" ↔ ∃ r, v = PDict r ∧ r !! "action" = Some (PStr "edit").
Proof.
  split.
  - destruct v as [| | | | | | r]; try discriminate. simpl.
    destruct (r !! "action") as [a |] eqn:Ha; simpl; [| discriminate].
    intros ->. by exists r.
  - intros (r & -> & Ha). simpl. by rewrite Ha.
Qed.

(** X6. The review fails open.  Whatever the resume value, the status
    becomes redo only for a dict whose action is the string redo; every
    other value that the step accepts (a bare string, a dict with an
    unknown or missing action, null) approves the report.  The report is
    only rewritten for a dict whose action is edit, and only when the
    state holds a report that is not empty. *)
Theorem review_fail_open (st : DeepResearchState) (v : pyval) (u : update) :
  review_node st (Some v) = Some (Return u) →
  (set_status u = Some "redo" ↔
     ∃ r, v = PDict r ∧ r !! "action" = Some (PStr "redo"))
  ∧ ((¬ ∃ r, v = PDict r ∧ r !! "action" = Some (PStr "redo")) →
     set_status u = Some "approved")
  ∧ (is_Some (set_report u) →
     (∃ r, v = PDict r ∧ r !! "action" = Some (PStr "edit"))
     ∧ ∃ d, report st = Some d ∧ d ≠ ∅).
Proof.
  intros Hu.
  assert (Hnot : action_of v ≠ PStr "redo" → set_status u = Some "approved")
    by apply (review_not_redo _ _ _ Hu).
  split; [| split].
  - rewrite <- action_redo. split.
    + intros Hs. destruct (decide (eq_str (action_of v) "redo" = true)) as [H | H].
      * by apply ResearchGraphSpec.eq_str_spec.
      * rewrite ResearchGraphSpec.eq_str_spec in H. rewrite (Hnot H) in Hs.
        discriminate.
    + intros Ha. by rewrite (review_redo _ _ _ Hu Ha).
  - rewrite <- action_redo. exact Hnot.
  - intros Hr. destruct (review_sets_report _ _ _ Hu Hr) as [Ha Hd].
    split; [by apply action_edit | done].
Qed.

(** Resumed with the bare string redo, the review approves. *)
Lemma review_fail_open_witness :
  review_node (ResearchGraphSpec.synthesized ResearchGraphSpec.sample_report)
              (Some (PStr "redo")) =
    Some (Return (ResearchGraphSpec.status_only "approved")).
Proof.
  destruct (review_fail_open
    (ResearchGraphSpec.synthesized ResearchGraphSpec.sample_report)
    (PStr "redo") (ResearchGraphSpec.status_only "approved") eq_refl) as (_ & H & _).
  assert (Hs : set_status (ResearchGraphSpec.status_only "approved") = Some "approved").
  { apply H. by intros (r & [=] & _). }
  reflexivity.
Defined.

(** *** Clarify: the options and what can be selected *)

Lemma topic_option_ids (subtopics : list string) :
  opt_id <$> topic_options subtopics =
    (λ i, "topic_" +:+ pretty i) <$> seq 0 (length subtopics).
Proof.
  unfold topic_options. rewrite fmap_imap.
  rewrite (imap_ext _ (λ i _, "topic_" +:+ pretty i)) by done.
  by rewrite imap_seq_0.
Qed.

#[local] Instance topic_id_inj : Inj (=) (=) (λ i : nat, "topic_" +:+ pretty i).
Proof. intros i j H. by simplify_eq/=. Qed.

(** X7. The checkbox payload has one option per suggested sub-topic, in
    the order of the suggestions, each selected by default, and no two
    options share an id. *)
Theorem topic_options_distinct (subtopics : list string) :
  length (topic_options subtopics) = length subtopics
  ∧ opt_label <$> topic_options subtopics = subtopics
  ∧ NoDup (opt_id <$> topic_options subtopics)
  ∧ Forall (λ opt, opt_selected opt = true) (topic_options subtopics).
Proof.
  split; [| split; [| split]].
  - unfold topic_options. apply length_imap.
  - unfold topic_options. rewrite fmap_imap.
    rewrite (imap_ext _ (const id)) by done.
    by rewrite imap_const, list_fmap_id.
  - rewrite topic_option_ids. apply NoDup_fmap_2; [apply _ | apply NoDup_seq].
  - apply Forall_forall. intros opt Hin. unfold topic_options in Hin.
    by apply elem_of_lookup_imap in Hin as (i & t & -> & _).
Qed.

Lemma selected_sublist (subtopics : list string) (v : pyval) :
  ResearchGraphSpec.selected_labels subtopics v `sublist_of` subtopics.
Proof.
  unfold ResearchGraphSpec.selected_labels.
  destruct v as [| | | | | ids |]; try apply sublist_nil_l.
  assert (Hl : snd <$> imap (λ i t, (i, t)) subtopics = subtopics).
  { rewrite fmap_imap. rewrite (imap_ext _ (const id)) by done.
    by rewrite imap_const, list_fmap_id. }
  rewrite <- Hl at 2. apply fmap_sublist, sublist_filter.
Qed.

(** X8. Whatever the resume value, the clarified topics are taken from
    the suggestions: they are a sublist of the suggested sub-topics, in
    their order, and they are not empty unless the model suggested
    nothing.  An empty research plan is never the user's doing. *)
Theorem clarify_within_suggestions (suggest : string → exc (list string))
    (st : DeepResearchState) (subtopics : list string) (v : pyval) :
  suggest (clarify_prompt (default "" (topic st))) = Ok subtopics →
  ∃ topics,
    clarify_node suggest st (Some v) =
      Return {| set_clarified_topics := Some topics;
                set_explorer_instructions := None;
                add_search_results := [];
                set_report := None;
                set_status := Some "clarified" |}
    ∧ topics `sublist_of` subtopics
    ∧ (subtopics ≠ [] → topics ≠ []).
Proof.
  intros Hs. exists (ResearchGraphSpec.clarified subtopics v).
  split; [by apply ResearchGraphSpec.clarify_node_resume |].
  unfold ResearchGraphSpec.clarified.
  pose proof (selected_sublist subtopics v) as Hsub.
  destruct (ResearchGraphSpec.selected_labels subtopics v) as [| t selected];
    split; done.
Qed.

Lemma clarify_within_suggestions_witness :
  ∃ topics,
    clarify_node (λ _, Ok ResearchGraphSpec.six_topics)
                 (ResearchGraphSpec.research_state [] "quick")
                 (Some (PDict {["topic_1" := PBool true]})) =
      Return {| set_clarified_topics := Some topics;
                set_explorer_instructions := None;
                add_search_results := [];
                set_report := None;
                set_status := Some "clarified" |}
    ∧ topics `sublist_of` ResearchGraphSpec.six_topics.
Proof.
  destruct (clarify_within_suggestions (λ _, Ok ResearchGraphSpec.six_topics)
              (ResearchGraphSpec.research_state [] "quick")
              ResearchGraphSpec.six_topics
              (PDict {["topic_1" := PBool true]}) eq_refl) as (topics & H1 & H2 & _).
  by exists topics.
Defined.

End ResearchNodesSpec.

(** ** The parent graph: routing, research hand-off and saving *)

Module AgentSpec.
Import Schemas LangGraph ToolRegistry Agent.

(** *** The router and the tool registry *)

Lemma simple_not_sentinel (name : string) :
  name ∈ SIMPLE_TOOLS → name ≠ "deep_research" ∧ name ≠ "save_report".
Proof.
  unfold SIMPLE_TOOLS. rewrite !elem_of_cons, elem_of_nil.
  intros [-> | [-> | [-> | [-> | []]]]]; by split.
Qed.

Lemma all_tools_cases (name : string) :
  name ∈ ALL_TOOLS →
  name ∈ SIMPLE_TOOLS ∨ name = "deep_research" ∨ name = "save_report".
Proof.
  unfold ALL_TOOLS, SIMPLE_TOOLS. rewrite !elem_of_cons, elem_of_nil. tauto.
Qed.

(** X9. The real-tool branch only gets turns it can execute.  When the
    calls of the last message all name tools bound to the model, the
    router answers tools exactly when there is a call and every call
    names a tool that [ToolNode] has: a sentinel never reaches it. *)
Theorem tools_branch_simple (st : Nodes.state) (m : message) (tcs : list tool_call) :
  last (Nodes.messages st) = Some m →
  tool_calls_of m = Some tcs →
  Forall (λ tc, tc_name tc ∈ ALL_TOOLS) tcs →
  Nodes.should_continue st = Ok "tools" ↔
  tcs ≠ [] ∧ Forall (λ tc, tc_name tc ∈ SIMPLE_TOOLS) tcs.
Proof.
  intros Hl Hm Hall. split.
  - intros Hroute.
    destruct (decide (tcs = [])) as [-> | Hne].
    { rewrite (NodesSpec.should_continue_no_calls _ _ Hl) in Hroute by auto.
      discriminate. }
    split; [done |].
    rewrite (NodesSpec.should_continue_calls _ _ _ Hl Hm Hne) in Hroute.
    repeat case_decide; try discriminate.
    apply Forall_forall. intros tc Hin.
    rewrite Forall_forall in Hall.
    destruct (all_tools_cases _ (Hall _ Hin)) as [Hs | [Hd | Hs]]; [done | |].
    + exfalso. apply H. apply NodesSpec.elem_of_tool_names. by exists tc.
    + exfalso. apply H0. apply NodesSpec.elem_of_tool_names. by exists tc.
  - intros [Hne Hsimple].
    rewrite (NodesSpec.should_continue_calls _ _ _ Hl Hm Hne).
    rewrite Forall_forall in Hsimple.
    rewrite !decide_False; [done | |].
    + rewrite NodesSpec.elem_of_tool_names. intros (tc & Hin & Hname).
      by destruct (simple_not_sentinel _ (Hsimple _ Hin)).
    + rewrite NodesSpec.elem_of_tool_names. intros (tc & Hin & Hname).
      by destruct (simple_not_sentinel _ (Hsimple _ Hin)).
Qed.

(** A turn that calls two real tools. *)
Definition two_tools : list tool_call :=
  [ToolCall "calculator" "tc-1" ∅; ToolCall "tavily_search" "tc-2" ∅].

Lemma tools_branch_simple_witness :
  Nodes.should_continue (Nodes.State [AIMessage "" two_tools] []) = Ok "tools".
Proof.
  apply (tools_branch_simple (Nodes.State [AIMessage "" two_tools] [])
           (AIMessage "" two_tools) two_tools eq_refl eq_refl).
  - repeat constructor; unfold ALL_TOOLS; rewrite !elem_of_cons; simpl; tauto.
  - split; [done |].
    repeat constructor; unfold SIMPLE_TOOLS; rewrite !elem_of_cons; simpl; tauto.
Defined.

(** *** Handing a turn to the research sub-pipeline *)

(** The first [deep_research] call of the last message. *)
Definition research_call (st : AgentState) : option tool_call :=
  tcs ← last (messages st) ≫= tool_calls_of; first_call "deep_research" tcs.

(** X10. [prepare_research_node] followed by [should_run_research].  The
    run enters the sub-pipeline exactly when the first deep_research
    call of the last message carries a topic that is truthy; the state
    then holds that topic and the call's depth, standard when it gives
    none, and no message is added.  In every other case the topic is
    reset to the empty string, whatever an earlier research left there,
    and one tool message that says so is addressed to the call, or to
    the id unknown when there is no call or its id is empty. *)
Theorem prepare_research_routes (st : AgentState) :
  let u := prepare_research_node st in
  let st' := apply_update st u in
  (should_run_research st' = "deep_research" ↔
     ∃ tc t, research_call st = Some tc ∧ tc_args tc !! "topic" = Some t
             ∧ truthy t = true)
  ∧ (should_run_research st' = "deep_research" →
     add_messages u = []
     ∧ ∃ tc t, research_call st = Some tc ∧ tc_args tc !! "topic" = Some t
               ∧ topic st' = Some t
               ∧ depth st' = Some (default (PStr "standard") (tc_args tc !! "depth")))
  ∧ (should_run_research st' ≠ "deep_research" →
     should_run_research st' = "agent"
     ∧ topic st' = Some (PStr "") ∧ depth st' = Some (PStr "standard")
     ∧ ∃ id, id ≠ ""
             ∧ add_messages u =
                 [ToolMessage "No research topic provided." id "deep_research"]
             ∧ (∀ tc, research_call st = Some tc → tc_id tc ≠ "" → id = tc_id tc)).
Proof.
  intros u st'. subst u st'.
  unfold prepare_research_node, should_run_research. fold (research_call st).
  destruct (research_call st) as [tc |] eqn:Hcall.
  - destruct (tc_args tc !! "topic") as [t |] eqn:Ht; simpl.
    + destruct (truthy t) eqn:Htruthy; simpl; rewrite ?Htruthy.
      * split; [| split]; [| | done].
        -- split; [intros _; by exists tc, t | done].
        -- intros _. split; [done |]. by exists tc, t.
      * split; [| split].
        -- split; [done |]. intros (tc' & t' & [= <-] & Ht' & Htr). congruence.
        -- done.
        -- intros _. split; [done |]. split; [done |]. split; [done |].
           destruct (decide (tc_id tc = "")) as [E | E].
           ++ exists "unknown". split; [done |]. split; [done |].
              intros tc' [= <-]. done.
           ++ exists (tc_id tc). split; [done |]. split; [done |].
              by intros tc' [= <-].
    + split; [| split].
      * split; [done |]. intros (tc' & t' & [= <-] & Ht' & _). congruence.
      * done.
      * intros _. split; [done |]. split; [done |]. split; [done |].
        destruct (decide (tc_id tc = "")) as [E | E].
        -- exists "unknown". split; [done |]. split; [done |].
           intros tc' [= <-]. done.
        -- exists (tc_id tc). split; [done |]. split; [done |].
           by intros tc' [= <-].
  - simpl. split; [| split].
    + split; [done |]. by intros (tc' & t' & [=] & _).
    + done.
    + intros _. split; [done |]. split; [done |]. split; [done |].
      exists "unknown". split; [done |]. split; [done |]. by intros tc' [=].
Qed.

(** *** Which call a tool message answers *)

(** The first call with this name that a message carries. *)
Definition call_in (name : string) (m : message) : option tool_call :=
  tool_calls_of m ≫= first_call name.

Lemma scan_call_id_cons (name : string) (m : message) (reversed : list message) :
  scan_call_id name (m :: reversed) "" =
    match call_in name m with
    | Some tc => if decide (tc_id tc = "") then scan_call_id name reversed ""
                 else tc_id tc
    | None => scan_call_id name reversed ""
    end.
Proof.
  simpl. fold (call_in name m). destruct (call_in name m) as [tc |]; [| done].
  destruct (decide (tc_id tc = "")) as [-> | E]; done.
Qed.

Lemma scan_call_id_from (name : string) (reversed : list message) :
  scan_call_id name reversed "" = ""
  ∨ ∃ m tc, m ∈ reversed ∧ call_in name m = Some tc
            ∧ tc_id tc = scan_call_id name reversed "".
Proof.
  induction reversed as [| m reversed IH]; [by left |].
  rewrite scan_call_id_cons.
  destruct (call_in name m) as [tc |] eqn:Hc.
  - destruct (decide (tc_id tc = "")) as [E | E].
    + destruct IH as [IH | (m' & tc' & Hin & Hc' & Hid)]; [by left |].
      right. exists m', tc'. split; [by right | done].
    + right. exists m, tc. split; [by left | done].
  - destruct IH as [IH | (m' & tc' & Hin & Hc' & Hid)]; [by left |].
    right. exists m', tc'. split; [by right | done].
Qed.

Lemma scan_call_id_skip (name : string) (later reversed : list message) :
  Forall (λ m, call_in name m = None) later →
  scan_call_id name (later ++ reversed) "" = scan_call_id name reversed "".
Proof.
  induction 1 as [| m later Hm _ IH]; [done |].
  rewrite <- app_comm_cons, scan_call_id_cons. by rewrite Hm.
Qed.

(** X11. The id that [save_to_db_node] and
    [process_research_result_node] address their tool message to is
    either empty or the id of a call with the right name that some
    message of the conversation carries; it is the id of the call of the
    most recent message that has one with an id, and messages without
    such a call that came after it do not change it. *)
Theorem call_id_joins (name : string) (msgs : list message) :
  (call_id name msgs = ""
   ∨ ∃ m tc, m ∈ msgs ∧ call_in name m = Some tc ∧ tc_name tc = name
             ∧ tc_id tc = call_id name msgs)
  ∧ (∀ m tc later,
       call_in name m = Some tc → tc_id tc ≠ "" →
       Forall (λ m', call_in name m' = None) later →
       call_id name (msgs ++ m :: later) = tc_id tc).
Proof.
  unfold call_id. split.
  - destruct (scan_call_id_from name (reverse msgs))
      as [H | (m & tc & Hin & Hc & Hid)]; [by left |].
    right. exists m, tc. split; [by apply elem_of_reverse |]. split; [done |].
    split; [| done].
    unfold call_in, first_call in Hc.
    destruct (tool_calls_of m) as [tcs |]; simpl in Hc; [| discriminate].
    apply head_Some_elem_of in Hc. by apply list_elem_of_filter in Hc as [Hn _].
  - intros m tc later Hc Hid Hlater.
    rewrite reverse_app, reverse_cons, <- app_assoc.
    rewrite scan_call_id_skip by (by apply Forall_reverse).
    simpl app. rewrite scan_call_id_cons, Hc. by rewrite decide_False.
Qed.

(** *** Confirming and saving a report *)

(** The resume values that confirm the save. *)
Definition says_save (v : pyval) : Prop :=
  v = PStr "save" ∨ ∃ r, v = PDict r ∧ r !! "action" = Some (PStr "save").

Lemma says_save_spec (v : pyval) :
  eq_str match v with
         | PDict r => default (PStr "cancel") (r !! "action")
         | v => v
         end "save" = true ↔ says_save v.
Proof.
  rewrite ResearchGraphSpec.eq_str_spec. unfold says_save. split.
  - destruct v as [| | | | s | |r]; try discriminate.
    + intros [= ->]. by left.
    + destruct (r !! "action") as [a |] eqn:Ha; simpl; [| discriminate].
      intros ->. right. by exists r.
  - intros [-> | (r & -> & Ha)]; [done |]. by rewrite Ha.
Qed.

Lemma validate_report_nonempty (d : gmap string pyval) (r : ResearchReport) :
  validate_report d = Ok r → d ≠ ∅.
Proof.
  intros Hv ->. unfold validate_report, required in Hv.
  rewrite lookup_empty in Hv. discriminate.
Qed.

Lemma index_elem_of {A : Type} (l : list A) (k : Z) (x : A) :
  index l k = Ok x → x ∈ l.
Proof.
  unfold index. destruct (_ && _); [| discriminate].
  destruct (l !! _) as [y |] eqn:Hy; [| discriminate].
  intros [= <-]. by eapply list_elem_of_lookup_2.
Qed.

Section Saving.

Variable str_other : pyval → string.
Variable json_dumps : list (string * pyval) → string.

(** X12. The save flow, from the resume of the confirmation to the
    reply of [save_to_db_node].  Only the string save, alone or as the
    action of a dict, stages a report: it is then one of the reports of
    the conversation, [pending_save] holds it, no message is added, and
    the run goes to [save_to_db], whose reply is one tool message; that
    node leaves [pending_save] as it is.  Every other resume value, and
    a conversation without reports, clears [pending_save], adds exactly
    one tool message and sends the run back to the agent. *)
Theorem save_flow (st : AgentState) (v : pyval) (u : Nodes.update) :
  Nodes.save_confirm_node (routing_view st) (Some v) = Return u →
  let st' := apply_update st (of_save_update u) in
  (says_save v → research_reports st ≠ [] →
     ∃ report,
       report ∈ research_reports st
       ∧ Nodes.selected_report (routing_view st) = Ok report
       ∧ pending_save st' = Some report
       ∧ messages st' = messages st
       ∧ save_confirm_edges !! should_continue_after_save_confirm st' = Some save_to_db
       ∧ pending_save (apply_update st' (save_to_db_node str_other json_dumps st'))
           = Some report
       ∧ ∃ content,
           add_messages (save_to_db_node str_other json_dumps st') =
             [ToolMessage content (call_id "save_report" (messages st)) "save_report"])
  ∧ (¬ says_save v ∨ research_reports st = [] →
     pending_save st' = None
     ∧ save_confirm_edges !! should_continue_after_save_confirm st' = Some agent
     ∧ ∃ content id,
         messages st' = messages st ++ [ToolMessage content id "save_report"]).
Proof.
  intros Hu st'. subst st'.
  unfold Nodes.save_confirm_node in Hu. simpl in Hu.
  destruct (research_reports st) as [| first rest] eqn:Hreports.
  - injection Hu as <-. split; [by intros _ [] |].
    intros _. split; [done |]. split; [done |]. by eexists _, _.
  - rewrite <- Hreports in *.
    destruct (Nodes.selected_report (routing_view st)) as [report | e] eqn:Hsel;
      simpl in Hu; [| discriminate].
    destruct (validate_report report) as [validated | e] eqn:Hval;
      simpl in Hu; [| discriminate].
    destruct (eq_str _ "save") eqn:Hsave in Hu.
    + apply says_save_spec in Hsave. injection Hu as <-. split.
      * intros _ _. exists report.
        pose proof (validate_report_nonempty _ _ Hval) as Hne.
        split.
        { unfold Nodes.selected_report in Hsel.
          destruct (Nodes.reverse_index _ _) as [k |]; simpl in Hsel; [| discriminate].
          by apply index_elem_of in Hsel. }
        split; [done |]. split; [done |].
        split; [simpl; by rewrite app_nil_r |].
        split.
        { unfold should_continue_after_save_confirm. simpl.
          by rewrite decide_False. }
        unfold save_to_db_node. simpl. rewrite decide_False by done. simpl.
        split; [done |]. rewrite app_nil_r. by eexists.
      * intros [Hn | Hn]; [done |]. by rewrite Hn in Hreports.
    + assert (Hnot : ¬ says_save v).
      { intros H. apply says_save_spec in H. congruence. }
      injection Hu as <-. split; [done |].
      intros _. split; [done |]. split; [done |]. by eexists _, _.
Qed.

End Saving.

(** The conversation of [NodesSpec.three_reports] at index 1, as a state
    of the parent graph. *)
Definition saving_state : AgentState :=
  {| messages := Nodes.messages (NodesSpec.three_reports 1);
     model := None;
     research_reports := Nodes.research_reports (NodesSpec.three_reports 1);
     pending_save := None; topic := None; depth := None; report := None |}.

Definition staged_b : Nodes.update :=
  {| Nodes.add_messages := [];
     Nodes.set_pending_save := Some (Some (NodesSpec.report_named "B")) |}.

Lemma save_flow_witness :
  ∃ report,
    pending_save (apply_update saving_state (of_save_update staged_b)) = Some report
    ∧ report ∈ research_reports saving_state.
Proof.
  assert (Hu : Nodes.save_confirm_node (routing_view saving_state)
                 (Some (PDict {["action" := PStr "save"]})) = Return staged_b)
    by (vm_compute; reflexivity).
  destruct (save_flow (λ _, "") (λ _, "") saving_state
              (PDict {["action" := PStr "save"]}) staged_b Hu) as [H _].
  destruct H as (report & Hin & _ & Hp & _).
  - right. by exists {["action" := PStr "save"]}.
  - done.
  - by exists report.
Defined.

(** *** Folding the report back into the conversation *)

(** The values that [for] cannot go through. *)
Definition not_iterable (v : pyval) : Prop :=
  match v with
  | PNone | PBool _ | PInt _ | PFloat _ => True
  | _ => False
  end.

Section Summary.

Variable str_other : pyval → string.

Lemma report_parts_not_iterable (r : gmap string pyval) (v : pyval) :
  r !! "key_findings" = Some v → not_iterable v →
  report_parts str_other r =
    Some (Raise (Exn "TypeError" ("'" +:+ type_name v +:+ "' object is not iterable"))).
Proof.
  intros Hk Hv. unfold report_parts. rewrite Hk. simpl.
  by destruct v.
Qed.

Lemma process_result_raises (st : AgentState) (r : gmap string pyval) (v : pyval) :
  report st = Some r → r ≠ ∅ →
  r !! "key_findings" = Some v → not_iterable v →
  process_research_result_node str_other st =
    Some (Raise (Exn "TypeError" ("'" +:+ type_name v +:+ "' object is not iterable"))).
Proof.
  intros Hr Hne Hk Hv. unfold process_research_result_node.
  rewrite Hr, decide_False by done.
  by rewrite (report_parts_not_iterable _ _ Hk Hv).
Qed.

(** X13. [process_research_result_node] answers the research call with
    exactly one tool message, addressed to the id that [call_id] finds,
    and adds the report to [research_reports] exactly when the state
    holds a report that is not empty: the list never receives an empty
    report.  Without a report the message says that none was generated;
    with a report whose key findings are a number, a boolean or null
    the node raises [TypeError]. *)
Theorem process_result_reports (st : AgentState) :
  (∀ u, process_research_result_node str_other st = Some (Ok u) →
     (∃ content,
        add_messages u =
          [ToolMessage content (call_id "deep_research" (messages st)) "deep_research"])
     ∧ (∀ r, add_research_reports u = [r] ↔ report st = Some r ∧ r ≠ ∅)
     ∧ (add_research_reports u = [] ↔ report st = None ∨ report st = Some ∅)
     ∧ (Forall (λ r, r ≠ ∅) (research_reports st) →
        Forall (λ r, r ≠ ∅) (research_reports (apply_update st u))))
  ∧ (report st = None ∨ report st = Some ∅ →
     process_research_result_node str_other st =
       Some (Ok {| add_messages :=
                     [ToolMessage "Research completed but no report was generated."
                        (call_id "deep_research" (messages st)) "deep_research"];
                   add_research_reports := []; set_pending_save := None;
                   set_topic := None; set_depth := None |}))
  ∧ (∀ r v, report st = Some r → r ≠ ∅ →
       r !! "key_findings" = Some v → not_iterable v →
       process_research_result_node str_other st =
         Some (Raise (Exn "TypeError"
                        ("'" +:+ type_name v +:+ "' object is not iterable")))).
Proof.
  split; [| split].
  - intros u Hu. unfold process_research_result_node in Hu.
    destruct (report st) as [r |]; [destruct (decide (r = ∅)) as [-> | Hne] |].
    + injection Hu as <-. simpl.
      split; [by eexists |]. split; [| split].
      * intros r. split; [done |]. by intros [[= <-] Hne].
      * split; [auto | done].
      * intros Hall. by rewrite app_nil_r.
    + destruct (report_parts str_other r) as [[parts | e] |]; try discriminate.
      injection Hu as <-. simpl.
      split; [by eexists |]. split; [| split].
      * intros r'. split; [by intros [= <-] | by intros [[= <-] _]].
      * split; [done |]. by intros [[=] | [= ->]].
      * intros Hall. apply Forall_app. split; [done |]. by constructor.
    + injection Hu as <-. simpl.
      split; [by eexists |]. split; [| split].
      * intros r. split; [done |]. by intros [[=] _].
      * split; [auto | done].
      * intros Hall. by rewrite app_nil_r.
  - intros Hr. unfold process_research_result_node.
    destruct Hr as [-> | ->]; [done |]. by rewrite decide_True.
  - apply process_result_raises.
Qed.

End Summary.

(** X14. The edits of a review are not validated.  Edits that replace
    the key findings of the report by a number, a boolean or null are
    merged and the report is approved as it then is; the parent node
    that summarises the approved report then raises [TypeError] on it. *)
Theorem edit_not_validated (str_other : pyval → string)
    (st : ResearchGraph.DeepResearchState) (d : gmap string pyval)
    (payload : HITLPayload) (r : gmap string pyval) (v : pyval) :
  ResearchGraph.report st = Some d → d ≠ ∅ →
  ResearchGraph.review_node st None = Some (Suspend payload) →
  r !! "action" = Some (PStr "edit") →
  r !! "edits" = Some (PDict {["key_findings" := v]}) →
  not_iterable v →
  ∃ u d',
    ResearchGraph.review_node st (Some (PDict r)) = Some (Return u)
    ∧ ResearchGraph.set_status u = Some "approved"
    ∧ ResearchGraph.report (ResearchGraph.apply_update st u) = Some d'
    ∧ ∀ parent, report parent = Some d' →
        process_research_result_node str_other parent =
          Some (Raise (Exn "TypeError"
                         ("'" +:+ type_name v +:+ "' object is not iterable"))).
Proof.
  intros Hd Hne Hsusp Ha He Hv.
  destruct (ResearchGraphSpec.review_edit _ _ _ _ _ Hd Hne Hsusp Ha He)
    as (u & Hu & Hs & Hr).
  exists u, ({["key_findings" := v]} ∪ d). split; [done |]. split; [done |].
  split; [done |]. intros parent Hp.
  apply (process_result_raises str_other parent _ v Hp); [| | done].
  - by apply ResearchRunSpec.union_nonempty.
  - apply lookup_union_Some_l, lookup_singleton_eq.
Qed.

Lemma edit_not_validated_witness :
  ∃ u d',
    ResearchGraph.review_node
      (ResearchGraphSpec.synthesized ResearchGraphSpec.sample_report)
      (Some (PDict {["action" := PStr "edit";
                     "edits" := PDict {["key_findings" := PInt 5]}]}))
      = Some (Return u)
    ∧ ResearchGraph.report
        (ResearchGraph.apply_update
           (ResearchGraphSpec.synthesized ResearchGraphSpec.sample_report) u) = Some d'
    ∧ process_research_result_node (λ _, "")
        {| messages := []; model := None; research_reports := [];
           pending_save := None; topic := None; depth := None; report := Some d' |}
      = Some (Raise (Exn "TypeError" "'int' object is not iterable")).
Proof.
  destruct (edit_not_validated (λ _, "")
              (ResearchGraphSpec.synthesized ResearchGraphSpec.sample_report)
              (model_dump ResearchGraphSpec.sample_report)
              {| payload_type := review;
                 payload_title := "Review Research Report";
                 payload_message :=
                   "Please review the research report below. You can approve it, edit it, or request a redo.";
                 payload_report := Some ResearchGraphSpec.sample_report;
                 payload_options := Some ResearchGraph.review_options |}
              {["action" := PStr "edit"; "edits" := PDict {["key_findings" := PInt 5]}]}
              (PInt 5))
    as (u & d' & Hu & _ & Hr & Hraise);
    [reflexivity | apply ResearchGraphSpec.model_dump_nonempty | reflexivity
    | by vm_compute | by vm_compute | exact I |].
  exists u, d'. split; [exact Hu |]. split; [exact Hr |]. by apply Hraise.
Defined.

(** *** Retrieval and the system prompt *)

Section Retrieval.

Variable retrieve_documents : string → exc (list document).

Lemma concat_nonempty (sep x : string) (l : list string) :
  x ≠ "" → String.concat sep (x :: l) ≠ "".
Proof. destruct x as [| c x]; [done |]. intros _. by destruct l. Qed.

Lemma rag_context_empty (st : AgentState) :
  get_rag_context retrieve_documents st = "" ↔
  messages st = []
  ∨ ∃ m, last (messages st) = Some m
         ∧ (content_of m = ""
            ∨ retrieve_documents (content_of m) = Ok []
            ∨ ∃ e, retrieve_documents (content_of m) = Raise e).
Proof.
  unfold get_rag_context. destruct (last (messages st)) as [m |] eqn:Hl.
  - destruct (decide (content_of m = "")) as [E | E].
    + split; [| done]. intros _. right. exists m. auto.
    + destruct (retrieve_documents (content_of m)) as [[| doc docs] | e] eqn:Hr.
      * split; [| done]. intros _. right. exists m. auto.
      * split.
        -- intros H. by apply concat_nonempty in H.
        -- intros [Hm | (m' & Hm' & [H | [H | [e H]]])].
           ++ by rewrite Hm in Hl.
           ++ injection Hm' as <-. congruence.
           ++ injection Hm' as <-. congruence.
           ++ injection Hm' as <-. congruence.
      * split; [| done]. intros _. right. exists m. eauto.
  - split; [| done]. intros _. left. by apply last_None.
Qed.

Lemma retrieve_node_some (st : AgentState) (msgs : list message) :
  retrieve_node retrieve_documents st = Some msgs →
  ∃ rest, msgs = SystemMessage (SYSTEM_PROMPT +:+ rest) :: messages st.
Proof.
  unfold retrieve_node. destruct (decide _) as [E | E]; [done |].
  destruct (messages st) as [| [] rest]; intros [= <-]; by eexists.
Qed.

(** X15. [retrieve_node] changes nothing (it returns the empty dict)
    exactly when there is no message, the last message has no content,
    the retriever raises or finds no document, or the conversation
    already starts with a system message; a failure of the retriever
    never fails the node.  Otherwise it returns the conversation with
    one system message in front that starts with the system prompt. *)
Theorem retrieve_node_cases (st : AgentState) :
  (retrieve_node retrieve_documents st = None ↔
     messages st = []
     ∨ (∃ m, last (messages st) = Some m
             ∧ (content_of m = ""
                ∨ retrieve_documents (content_of m) = Ok []
                ∨ ∃ e, retrieve_documents (content_of m) = Raise e))
     ∨ ∃ c rest, messages st = SystemMessage c :: rest)
  ∧ (∀ msgs, retrieve_node retrieve_documents st = Some msgs →
       ∃ rest, msgs = SystemMessage (SYSTEM_PROMPT +:+ rest) :: messages st).
Proof.
  unfold retrieve_node. split.
  - destruct (decide (get_rag_context retrieve_documents st = "")) as [E | E].
    + split; [| done]. intros _. apply rag_context_empty in E. tauto.
    + rewrite rag_context_empty in E. split.
      * destruct (messages st) as [| [] rest] eqn:Hm; try done.
        intros _. right. right. by eexists _, _.
      * intros [H | [H | (c & rest & ->)]]; tauto.
  - apply retrieve_node_some.
Qed.

Variable invoke : llm_config → list string → list message → exc message.

(** What [agent_node] does with the answer of the model. *)
Definition responds (answer : exc message) : step update :=
  call answer (λ response,
    Return {| add_messages := [response]; add_research_reports := [];
              set_pending_save := None; set_topic := None; set_depth := None |}).

(** X16. After [retrieve_node] has put the context in, [agent_node]
    invokes the model on the conversation as it is, without a second
    system prompt, in whatever order the state keeps the messages that
    [retrieve_node] returned; on a conversation without any system
    message it puts the plain system prompt in front for the call.  In
    both cases only the answer of the model is added to the state. *)
Theorem agent_input_after_retrieve (st : AgentState) :
  (∀ msgs st', retrieve_node retrieve_documents st = Some msgs →
     (∀ m, m ∈ msgs → m ∈ messages st') →
     agent_node invoke st' =
       responds (invoke (get_llm (default DEFAULT_MODEL (model st'))) ALL_TOOLS
                        (messages st')))
  ∧ (∀ st', Forall (λ m, is_system m = false) (messages st') →
       agent_node invoke st' =
         responds (invoke (get_llm (default DEFAULT_MODEL (model st'))) ALL_TOOLS
                          (SystemMessage SYSTEM_PROMPT :: messages st'))).
Proof.
  split.
  - intros msgs st' Hr Hkept.
    destruct (retrieve_node_some _ _ Hr) as [rest ->].
    unfold agent_node, agent_input.
    assert (H : existsb is_system (messages st') = true).
    { apply existsb_exists. exists (SystemMessage (SYSTEM_PROMPT +:+ rest)).
      split; [| reflexivity]. apply list_elem_of_In, Hkept. by left. }
    by rewrite H.
  - intros st' Hall. unfold agent_node, agent_input.
    assert (H : existsb is_system (messages st') = false).
    { apply not_true_is_false. intros H. apply existsb_exists in H as (m & Hin & Hm).
      rewrite Forall_forall in Hall. apply list_elem_of_In in Hin.
      by rewrite (Hall _ Hin) in Hm. }
    by rewrite H.
Qed.

End Retrieval.

End AgentSpec.

(** * Properties of the parsing of the frontend's messages *)

Module ViewsStreamSpec.

Import ViewsStream.

(** The message types [parse_input_messages] has a branch for. *)
Definition known_types : list string := ["human"; "ai"; "tool"; "system"].

Section Parse.

Variable human : pyval → exc message.
Variable ai : pyval → pyval → exc message.
Variable tool : pyval → pyval → pyval → exc message.
Variable system : pyval → exc message.

#[local] Abbreviation parse_message := (parse_message human ai tool system).
#[local] Abbreviation parse_input_messages :=
  (parse_input_messages human ai tool system).

Lemma parse_cons (msg : pyval) (raw : list pyval) :
  parse_input_messages (msg :: raw) =
    parsed ← parse_message msg;
    messages ← parse_input_messages raw;
    Ok (option_list parsed ++ messages).
Proof.
  cbn [ViewsStream.parse_input_messages].
  destruct (parse_message msg) as [[m |] | e]; [| | done];
    by destruct (parse_input_messages raw).
Qed.

Lemma parse_app (l1 l2 : list pyval) :
  parse_input_messages (l1 ++ l2) =
    m1 ← parse_input_messages l1;
    m2 ← parse_input_messages l2;
    Ok (m1 ++ m2).
Proof.
  induction l1 as [| msg l1 IH].
  - cbn. by destruct (parse_input_messages l2).
  - rewrite <- app_comm_cons, !parse_cons, IH.
    destruct (parse_message msg) as [parsed | e]; [| done]. cbn.
    destruct (parse_input_messages l1) as [m1 | e]; [| done]. cbn.
    destruct (parse_input_messages l2) as [m2 | e]; [| done]. cbn.
    by rewrite app_assoc.
Qed.

Lemma parse_unknown (d : gmap string pyval) :
  (∀ s, s ∈ known_types → msg_type d ≠ PStr s) →
  parse_message (PDict d) = Ok None.
Proof.
  intros H. unfold ViewsStream.parse_message.
  assert (E : ∀ s, s ∈ known_types → eq_str (msg_type d) s = false).
  { intros s Hs. specialize (H s Hs). unfold eq_str.
    destruct (msg_type d); try done. apply bool_decide_eq_false. congruence. }
  rewrite !E; [done | | | |]; unfold known_types; set_solver.
Qed.

Lemma parse_length (raw : list pyval) (messages : list message) :
  parse_input_messages raw = Ok messages → (length messages ≤ length raw)%nat.
Proof.
  revert messages. induction raw as [| msg raw IH]; intros messages.
  - by intros [= <-].
  - rewrite parse_cons.
    destruct (parse_message msg) as [parsed | e]; [| done]. cbn.
    destruct (parse_input_messages raw) as [rest | e]; [| done]. cbn.
    intros [= <-]. specialize (IH _ eq_refl). rewrite length_app.
    destruct parsed; cbn; lia.
Qed.

(** X17. A message whose type (the key [type], else the key [role],
    else ["human"]) is none of human, ai, tool and system is left out
    without any message being built for it: the parse is that of the
    list without it.  So a message given as [{"role": "user", ..}] never
    reaches the conversation. *)
Theorem unknown_type_skipped (l1 l2 : list pyval) (d : gmap string pyval) :
  (∀ s, s ∈ known_types → msg_type d ≠ PStr s) →
  parse_input_messages (l1 ++ PDict d :: l2) = parse_input_messages (l1 ++ l2).
Proof.
  intros H. rewrite !parse_app, parse_cons, (parse_unknown _ H).
  destruct (parse_input_messages l1) as [m1 | e]; [| done]. cbn.
  by destruct (parse_input_messages l2).
Qed.

(** X18. One element that is not a dict fails the whole parse, wherever
    it stands: either an earlier message already raised, and that is the
    exception, or the exception is the [AttributeError] of [msg.get]. *)
Theorem malformed_message_fails (l1 l2 : list pyval) (v : pyval) :
  (∀ d, v ≠ PDict d) →
  ∃ e, parse_input_messages (l1 ++ v :: l2) = Raise e
       ∧ (parse_input_messages l1 = Raise e
          ∨ (∃ m1, parse_input_messages l1 = Ok m1)
            ∧ e = Exn "AttributeError"
                      ("'" +:+ type_name v +:+ "' object has no attribute 'get'")).
Proof.
  intros H. rewrite parse_app, parse_cons.
  destruct (parse_input_messages l1) as [m1 | e]; cbn.
  - destruct v; try (eexists; split; [reflexivity |]; right; by eauto).
    by destruct (H d).
  - exists e. auto.
Qed.

(** X19. The messages are parsed one by one and in order: the parse of
    a concatenation is the concatenation of the parses, raising what the
    first failing part raises; and the result is never longer than the
    input. *)
Theorem parse_in_order (l1 l2 : list pyval) :
  parse_input_messages (l1 ++ l2) =
    match parse_input_messages l1, parse_input_messages l2 with
    | Ok m1, Ok m2 => Ok (m1 ++ m2)
    | Raise e, _ | Ok _, Raise e => Raise e
    end
  ∧ ∀ messages, parse_input_messages (l1 ++ l2) = Ok messages →
      (length messages ≤ length l1 + length l2)%nat.
Proof.
  split.
  - rewrite parse_app.
    destruct (parse_input_messages l1) as [m1 | e]; [| done]. cbn.
    by destruct (parse_input_messages l2).
  - intros messages H. apply parse_length in H. by rewrite length_app in H.
Qed.

End Parse.

(** A sample of the four constructors, to run the parser on concrete
    messages: they accept a string content (for a tool message also
    string ids, for an AI message no tool call) and reject anything
    else. *)
Definition validation_error : exn := Exn "ValidationError" "".

Definition human (content : pyval) : exc message :=
  match content with
  | PStr s => Ok (HumanMessage s)
  | _ => Raise validation_error
  end.

Definition system (content : pyval) : exc message :=
  match content with
  | PStr s => Ok (SystemMessage s)
  | _ => Raise validation_error
  end.

Definition ai (content tool_calls : pyval) : exc message :=
  match content, tool_calls with
  | PStr s, PList [] => Ok (AIMessage s [])
  | _, _ => Raise validation_error
  end.

Definition tool (content tool_call_id name : pyval) : exc message :=
  match content, tool_call_id, name with
  | PStr s, PStr i, PStr n => Ok (ToolMessage s i n)
  | _, _, _ => Raise validation_error
  end.

Definition user_message : gmap string pyval :=
  {[ "role" := PStr "user"; "content" := PStr "hi" ]}.

Definition human_message : pyval :=
  PDict {[ "type" := PStr "human"; "content" := PStr "hello" ]}.

Lemma user_unknown (s : string) :
  s ∈ known_types → msg_type user_message ≠ PStr s.
Proof.
  unfold known_types. rewrite !elem_of_cons, elem_of_nil.
  intros [-> | [-> | [-> | [-> | []]]]]; by vm_compute.
Qed.

Lemma unknown_type_skipped_witness :
  parse_input_messages human ai tool system
      ([human_message] ++ PDict user_message :: [human_message]) =
    parse_input_messages human ai tool system ([human_message] ++ [human_message])
  ∧ parse_input_messages human ai tool system
      ([human_message] ++ PDict user_message :: [human_message]) =
    Ok [HumanMessage "hello"; HumanMessage "hello"].
Proof.
  split.
  - exact (unknown_type_skipped human ai tool system
             [human_message] [human_message] user_message user_unknown).
  - by vm_compute.
Defined.

Lemma malformed_message_fails_witness :
  ∃ e, parse_input_messages human ai tool system
         ([human_message] ++ PStr "hello" :: []) = Raise e
       ∧ (parse_input_messages human ai tool system [human_message] = Raise e
          ∨ (∃ m1, parse_input_messages human ai tool system [human_message] = Ok m1)
            ∧ e = Exn "AttributeError" "'str' object has no attribute 'get'").
Proof.
  apply (malformed_message_fails human ai tool system
           [human_message] [] (PStr "hello")).
  intros d. discriminate.
Defined.

End ViewsStreamSpec.
